(** * ZKTeco iClock parser: a shallow embedding of [src/parser.ts]

    The TypeScript class [ZKTecoiClockParser] is a namespace of static, pure
    functions.  Each of them is embedded below under its own name.  The parts
    of the JavaScript runtime they call ([String.prototype.trim], [split],
    [replace], [Number.parseInt], the [Date] constructor) are embedded first,
    following ECMA-262.

    Conventions of the embedding.
    - A JavaScript string is a [string]; a character stands for one code unit
      in the range U+0000..U+00FF (so the white space of [trim] and [parseInt]
      is TAB, LF, VT, FF, CR, SP and NBSP).
    - A JavaScript number that holds an integer is a [Z]; [NaN] is [None] of an
      [option Z].  Numbers are exact: the rounding of integers above 2^53 is
      not modelled (no enum membership test depends on it).
    - [null]/[undefined] results are [None].
    - The time zone of the executing process is a fixed offset from UTC, given
      in minutes east of Greenwich ([LocalTZA]). *)

From Stdlib Require Import ZArith Ascii String DecimalString DecimalNat DecimalPos DecimalZ.
From stdpp Require Import base list strings gmap.

Local Open Scope string_scope.
Local Open Scope list_scope.
Local Open Scope Z_scope.

(** ** JavaScript strings *)

Module Js.

(** WhiteSpace and LineTerminator code units below U+0100. *)
Definition isWhiteSpace (c : ascii) : bool :=
  let n := nat_of_ascii c in
  ((9 <=? n)%nat && (n <=? 13)%nat) || (n =? 32)%nat || (n =? 160)%nat.

(** The values a caller can hand to a function, as far as their kind
    matters here. *)
Inductive value :=
| VUndefined
| VNull
| VBool (b : bool)
| VNum (n : Z)
| VStr (s : string)
| VObj.

(** [arr.includes(VNum n)] (SameValueZero): a number equals only a number. *)
Definition includesNum (arr : list value) (n : Z) : bool :=
  existsb (fun v => match v with VNum m => m =? n | _ => false end) arr.

(** A string is truthy when it is not empty. *)
Definition truthy (s : string) : bool :=
  match s with EmptyString => false | String _ _ => true end.

Fixpoint trimStart (s : string) : string :=
  match s with
  | EmptyString => EmptyString
  | String c r => if isWhiteSpace c then trimStart r else s
  end.

Fixpoint trimEnd (s : string) : string :=
  match s with
  | EmptyString => EmptyString
  | String c r =>
      match trimEnd r with
      | EmptyString => if isWhiteSpace c then EmptyString else String c EmptyString
      | r' => String c r'
      end
  end.

(** [String.prototype.trim]. *)
Definition trim (s : string) : string := trimEnd (trimStart s).

(** [s.split(sep)] for a separator of one code unit: never empty. *)
Fixpoint split (sep : ascii) (s : string) : list string :=
  match s with
  | EmptyString => [EmptyString]
  | String c r =>
      if Ascii.eqb c sep then EmptyString :: split sep r
      else match split sep r with
           | [] => [String c EmptyString]
           | h :: t => String c h :: t
           end
  end.

(** [s.replace(/c/g, d)]: every occurrence of the code unit [c]. *)
Fixpoint replaceAll (c d : ascii) (s : string) : string :=
  match s with
  | EmptyString => EmptyString
  | String x r => String (if Ascii.eqb x c then d else x) (replaceAll c d r)
  end.

(** [s.replace(c, d)] with a string pattern: the first occurrence only. *)
Fixpoint replaceFirst (c d : ascii) (s : string) : string :=
  match s with
  | EmptyString => EmptyString
  | String x r => if Ascii.eqb x c then String d r else String x (replaceFirst c d r)
  end.

(** [arr.join(sep)]. *)
Fixpoint join (sep : string) (l : list string) : string :=
  match l with
  | [] => EmptyString
  | [x] => x
  | x :: r => x +:+ sep +:+ join sep r
  end.

(** Number-to-string conversion of an integer, as a template literal does
    for the integers JavaScript holds exactly (at most 2^53 in magnitude). *)
Definition ofNat (n : nat) : string := NilZero.string_of_uint (Nat.to_uint n).
Definition ofZ (z : Z) : string := NilZero.string_of_int (Z.to_int z).

(** *** [Number.parseInt(s, 10)] *)

Definition digitValue (c : ascii) : option Z :=
  let n := nat_of_ascii c in
  if ((48 <=? n)%nat && (n <=? 57)%nat) then Some (Z.of_nat n - 48) else None.

(** The longest prefix of decimal digits, read from the left with the
    accumulator [acc]; [seen] records that one digit was read. *)
Fixpoint digits (s : string) (acc : Z) (seen : bool) : option Z :=
  match s with
  | EmptyString => if seen then Some acc else None
  | String c r =>
      match digitValue c with
      | Some d => digits r (10 * acc + d) true
      | None => if seen then Some acc else None
      end
  end.

(** Leading white space is skipped, one sign is accepted, then the longest
    run of digits is read; no digit at all is [NaN].  The result is the
    integer the digits denote: it is the number JavaScript returns as long
    as that integer is at most 2^53 in magnitude (beyond, JavaScript rounds
    to a double); statements about the value read carry this bound. *)
Definition parseInt (s : string) : option Z :=
  match trimStart s with
  | String "-" r => Z.opp <$> digits r 0 false
  | String "+" r => digits r 0 false
  | r => digits r 0 false
  end.

End Js.

(** ** The [Date] object

    A [Date] holds a time value: milliseconds since the epoch, or [NaN]
    ("Invalid Date", here [None]).  The string constructor accepts the Date
    Time String Format of ECMA-262 (21.4.1.32), the one format every engine
    must accept:
      [YYYY], [YYYY-MM], [YYYY-MM-DD], each optionally followed by
      [THH:mm], [THH:mm:ss] or [THH:mm:ss.sss] and then by [Z] or [+HH:mm] /
      [-HH:mm]; years may be written expanded, [+YYYYYY] / [-YYYYYY].
    A date-only form denotes UTC; a date-time form without offset denotes
    local time.  What an engine does with any other string is its own
    business and is taken here as "Invalid Date" (V8, for one, reads
    ["2025-08-27 10:57:49"] at once as local time, and takes a year of one
    or two digits in such a form as a year of 19xx or 20xx). *)

Module JsDate.

Definition msPerMinute : Z := 60000.
Definition msPerHour : Z := 3600000.
Definition msPerDay : Z := 86400000.

(** Largest magnitude of a time value. *)
Definition maxTime : Z := 8640000000000000.

Definition TimeClip (t : Z) : option Z :=
  if Z.abs t <=? maxTime then Some t else None.

Record Date := mkDate { getTime : option Z }.

(** [new Date(t)] for a finite number [t]. *)
Definition ofNumber (t : Z) : Date := mkDate (TimeClip t).

(** Day number of a calendar day of the proleptic Gregorian calendar
    ([MakeDay]); the month is 1-based. *)
Definition MakeDay (y m d : Z) : Z :=
  let y' := if m <=? 2 then y - 1 else y in
  let era := y' / 400 in
  let yoe := y' - era * 400 in
  let mp := if 2 <? m then m - 3 else m + 9 in
  let doy := (153 * mp + 2) / 5 + d - 1 in
  let doe := yoe * 365 + yoe / 4 - yoe / 100 + doy in
  era * 146097 + doe - 719468.

Definition MakeTime (h mi s ms : Z) : Z :=
  h * msPerHour + mi * msPerMinute + s * 1000 + ms.

(** Outcome of reading a date string. *)
Inductive Parsed :=
| Invalid
| LocalTime (w : Z)   (* wall-clock milliseconds, zone still to be applied *)
| UtcTime (t : Z).    (* an instant *)

(** Exactly [n] decimal digits. *)
Fixpoint takeDigits (n : nat) (s : string) (acc : Z) : option (Z * string) :=
  match n with
  | O => Some (acc, s)
  | S n' =>
      match s with
      | String c r =>
          match Js.digitValue c with
          | Some d => takeDigits n' r (10 * acc + d)
          | None => None
          end
      | EmptyString => None
      end
  end.

Definition expect (c : ascii) (s : string) : option string :=
  match s with
  | String x r => if Ascii.eqb x c then Some r else None
  | EmptyString => None
  end.

Definition parseYear (s : string) : option (Z * string) :=
  match s with
  | String "+" r => takeDigits 6 r 0
  | String "-" r =>
      match takeDigits 6 r 0 with
      | Some (y, r') => if y =? 0 then None else Some (- y, r')
      | None => None
      end
  | _ => takeDigits 4 s 0
  end.

(** The date part: the day number and the rest of the string. *)
Definition parseDatePart (s : string) : option (Z * string) :=
  '(y, r) ← parseYear s;
  match expect "-" r with
  | None => Some (MakeDay y 1 1, r)
  | Some r1 =>
      '(m, r2) ← takeDigits 2 r1 0;
      if (1 <=? m) && (m <=? 12) then
        match expect "-" r2 with
        | None => Some (MakeDay y m 1, r2)
        | Some r3 =>
            '(d, r4) ← takeDigits 2 r3 0;
            if (1 <=? d) && (d <=? 31) then Some (MakeDay y m d, r4) else None
        end
      else None
  end.

(** The time part after the [T]: milliseconds within the day. *)
Definition parseTimePart (s : string) : option (Z * string) :=
  '(h, r1) ← takeDigits 2 s 0;
  r2 ← expect ":" r1;
  '(mi, r3) ← takeDigits 2 r2 0;
  '(sec, ms, r6) ←
    match expect ":" r3 with
    | None => Some (0, 0, r3)
    | Some r4 =>
        '(sec, r5) ← takeDigits 2 r4 0;
        match expect "." r5 with
        | None => Some (sec, 0, r5)
        | Some r6 => '(ms, r7) ← takeDigits 3 r6 0; Some (sec, ms, r7)
        end
    end;
  if ((h <=? 23) && (mi <=? 59) && (sec <=? 59))
     || ((h =? 24) && (mi =? 0) && (sec =? 0) && (ms =? 0))
  then Some (MakeTime h mi sec ms, r6) else None.

(** The UTC offset designator closing a date-time form, in minutes:
    [None] when the string is not one, [Some None] when it is absent. *)
Definition parseOffset (s : string) : option (option Z) :=
  match s with
  | EmptyString => Some None
  | String "Z" EmptyString => Some (Some 0)
  | String sign r =>
      if Ascii.eqb sign "+" || Ascii.eqb sign "-" then
        '(h, r1) ← takeDigits 2 r 0;
        r2 ← expect ":" r1;
        '(mi, r3) ← takeDigits 2 r2 0;
        match r3 with
        | EmptyString =>
            if (h <=? 23) && (mi <=? 59) then
              let off := h * 60 + mi in
              Some (Some (if Ascii.eqb sign "-" then - off else off))
            else None
        | _ => None
        end
      else None
  end.

Definition parse (s : string) : Parsed :=
  match parseDatePart s with
  | None => Invalid
  | Some (day, EmptyString) => UtcTime (day * msPerDay)
  | Some (day, String "T" r) =>
      match parseTimePart r with
      | None => Invalid
      | Some (t, r') =>
          match parseOffset r' with
          | None => Invalid
          | Some None => LocalTime (day * msPerDay + t)
          | Some (Some off) => UtcTime (day * msPerDay + t - off * msPerMinute)
          end
      end
  | Some _ => Invalid
  end.

(** [new Date(s)] in a process whose local time is [tza] minutes ahead of
    UTC. *)
Definition ofString (tza : Z) (s : string) : Date :=
  match parse s with
  | Invalid => mkDate None
  | UtcTime t => mkDate (TimeClip t)
  | LocalTime w => mkDate (TimeClip (w - tza * msPerMinute))
  end.

(** [d.getTimezoneOffset()]: minutes from local time to UTC. *)
Definition getTimezoneOffset (tza : Z) (d : Date) : option Z :=
  match getTime d with
  | Some _ => Some (- tza)
  | None => None
  end.

End JsDate.

(** ** [src/types.ts] *)

(** TypeScript numeric enums are plain numbers at run time, and a cast
    ([num as WorkCode]) does not check membership: the fields that hold them
    are [Z].  [Object.values] of a numeric enum lists the member names (the
    reverse mapping) and then the numbers. *)

Module VerifyType.
Definition UNKNOWN : Z := 0.
Definition FINGERPRINT : Z := 1.
Definition PASSWORD : Z := 2.
Definition CARD : Z := 3.
Definition FACE : Z := 15.
Definition PALM : Z := 25.
Definition values : list Js.value :=
  [Js.VStr "UNKNOWN"; Js.VStr "FINGERPRINT"; Js.VStr "PASSWORD";
   Js.VStr "CARD"; Js.VStr "FACE"; Js.VStr "PALM";
   Js.VNum 0; Js.VNum 1; Js.VNum 2; Js.VNum 3; Js.VNum 15; Js.VNum 25].
End VerifyType.

Module InOutMode.
Definition CHECK_IN : Z := 0.
Definition CHECK_OUT : Z := 1.
Definition BREAK_OUT : Z := 2.
Definition BREAK_IN : Z := 3.
Definition OT_IN : Z := 4.
Definition OT_OUT : Z := 5.
Definition values : list Js.value :=
  [Js.VStr "CHECK_IN"; Js.VStr "CHECK_OUT"; Js.VStr "BREAK_OUT";
   Js.VStr "BREAK_IN"; Js.VStr "OT_IN"; Js.VStr "OT_OUT";
   Js.VNum 0; Js.VNum 1; Js.VNum 2; Js.VNum 3; Js.VNum 4; Js.VNum 5].
End InOutMode.

Module WorkCode.
Definition NORMAL : Z := 0.
Definition OVERTIME : Z := 1.
Definition HOLIDAY : Z := 2.
Definition WEEKEND : Z := 3.
Definition values : list Js.value :=
  [Js.VStr "NORMAL"; Js.VStr "OVERTIME"; Js.VStr "HOLIDAY"; Js.VStr "WEEKEND";
   Js.VNum 0; Js.VNum 1; Js.VNum 2; Js.VNum 3].
End WorkCode.

Record AttendanceLog := mkAttendanceLog {
  userID : string;
  timestamp : JsDate.Date;
  inOutMode : Z;
  verifyType : Z;
  workCode : Z;
  deviceID : option Z;
  reserved : option (list string);
  raw : option string
}.

Record DeviceInfo := mkDeviceInfo {
  serialNumber : string;
  model : string;
  userCount : Z;
  fpCount : Z;
  recordCount : Z;
  deviceIP : string;
  adminCount : Z;
  passwordCount : Z;
  cardCount : Z;
  faceCount : Z;
  firmware : option string;
  platform : option string;
  fingerVer : option string;
  faceVer : option string;
  pushVer : option string
}.

Record ParseResult (T : Type) := mkParseResult {
  success : bool;
  data : option T;
  error : option string;
  warnings : option (list string)
}.
Arguments mkParseResult {T}.
Arguments success {T}.
Arguments data {T}.
Arguments error {T}.
Arguments warnings {T}.

Inductive TimestampFormat := FormatAuto | FormatIso | FormatCustom.

(** An absent boolean option is falsy, so it is [false]; [timezoneOffset] is
    the offset in hours the parser reads with [options.timezoneOffset ?? 4]. *)
Record ParserOptions := mkParserOptions {
  strictMode : bool;
  includeRawData : bool;
  timestampFormat : option TimestampFormat;
  timezoneOffset : option Z
}.

(** [{}], the default of the [options] parameters. *)
Definition noOptions : ParserOptions := mkParserOptions false false None None.

(** [{ success: false, error }] and [{ success: true, data, warnings }]. *)
Definition failure {T} (e : string) : ParseResult T :=
  mkParseResult false None (Some e) None.

(** [l.length > 0 ? l : undefined] *)
Definition nonEmptyList {A} (l : list A) : option (list A) :=
  match l with [] => None | _ => Some l end.

(** ** [src/parser.ts] *)

Module ZKTecoiClockParser.

(** [`${x}`] for a possibly undefined string. *)
Definition template (o : option string) : string := default "undefined" o.

(** [!x] for a possibly undefined string. *)
Definition falsy (o : option string) : bool :=
  match o with
  | Some s => negb (Js.truthy s)
  | None => true
  end.

(** [x || d] for a possibly undefined string. *)
Definition orElse (o : option string) (d : string) : string :=
  match o with
  | Some s => if Js.truthy s then s else d
  | None => d
  end.

(** [x || undefined] *)
Definition orUndefined (o : option string) : option string :=
  match o with
  | Some s => if Js.truthy s then Some s else None
  | None => None
  end.

(** The ambient time zone [tza] of the process enters through the [Date]
    built-ins only.  The function returns [null] ([None]) or a [Date], which
    can itself be invalid when the shifted time value leaves the range of
    time values. *)
Definition parseTimestamp (tza : Z) (timestampStr : string)
    (timezoneOffset : Z) : option JsDate.Date :=
  if negb (Js.truthy timestampStr) then None
  else
    let shifted (date : JsDate.Date) (time : Z) : JsDate.Date :=
      match JsDate.getTimezoneOffset tza date with
      | Some serverOffsetMin =>
          let deviceOffsetMin := - timezoneOffset * 60 in
          let offsetDifferenceMin := deviceOffsetMin - serverOffsetMin in
          JsDate.ofNumber (time + offsetDifferenceMin * 60 * 1000)
      | None => JsDate.mkDate None
      end in
    let clean := Js.replaceAll "/" "-" (Js.trim timestampStr) in
    let date := JsDate.ofString tza clean in
    match JsDate.getTime date with
    | Some time => Some (shifted date time)
    | None =>
        let clean := Js.replaceFirst " " "T" clean in
        let date := JsDate.ofString tza clean in
        match JsDate.getTime date with
        | Some time => Some (shifted date time)
        | None => None
        end
    end.

Definition parseVerifyType (value : option string) : option Z :=
  if falsy value then None
  else
    match Js.parseInt (template value) with
    | None => None
    | Some num => if Js.includesNum VerifyType.values num then Some num else None
    end.

Definition parseInOutMode (value : option string) : option Z :=
  if falsy value then None
  else
    match Js.parseInt (template value) with
    | None => None
    | Some num => if Js.includesNum InOutMode.values num then Some num else None
    end.

Definition parseWorkCode (value : string) : Z :=
  match Js.parseInt value with
  | None => WorkCode.NORMAL
  | Some num => num
  end.

Definition parseNumber (value : string) : option Z := Js.parseInt value.

Definition TAB : ascii := "009".
Definition LF : ascii := "010".

Definition parseSingleAttendanceRecord (tza : Z) (line : string)
    (lineNumber : option nat) (options : ParserOptions)
    : ParseResult AttendanceLog :=
  let parts := Js.split TAB line in
  if (length parts <? 4)%nat then
    failure ("Insufficient fields (" +:+ Js.ofNat (length parts)
             +:+ "/4 minimum required)")
  else
    let userID := Js.trim <$> parts !! 0%nat in
    if falsy userID then failure "Missing User ID"
    else
      let timestampStr := Js.trim <$> parts !! 1%nat in
      if falsy timestampStr then failure "Missing timestamp"
      else
        match parseTimestamp tza (template timestampStr)
                (default 4 (timezoneOffset options)) with
        | None =>
            failure ("Invalid timestamp format: " +:+ template timestampStr)
        | Some timestamp =>
            let inOutModeRaw := Js.trim <$> parts !! 2%nat in
            let inOutMode := parseInOutMode inOutModeRaw in
            let warnings1 :=
              match inOutMode with
              | None => ["Unknown in/out mode: " +:+ template inOutModeRaw
                         +:+ ", using CHECK_IN"]
              | Some _ => []
              end in
            let verifyTypeRaw := Js.trim <$> parts !! 3%nat in
            let verifyType := parseVerifyType verifyTypeRaw in
            let warnings2 :=
              match verifyType with
              | None => warnings1 ++
                        ["Unknown verify type: " +:+ template verifyTypeRaw
                         +:+ ", using UNKNOWN"]
              | Some _ => warnings1
              end in
            let workCode :=
              if falsy (parts !! 4%nat) then WorkCode.NORMAL
              else parseWorkCode (Js.trim (template (parts !! 4%nat))) in
            let deviceID :=
              if falsy (parts !! 5%nat) then None
              else parseNumber (Js.trim (template (parts !! 5%nat))) in
            let reserved :=
              List.filter (fun p => (0 <? String.length p)%nat)
                (map Js.trim (drop 6 parts)) in
            let attendanceLog :=
              {| userID := template userID;
                 timestamp := timestamp;
                 inOutMode := default InOutMode.CHECK_IN inOutMode;
                 verifyType := default VerifyType.UNKNOWN verifyType;
                 workCode := workCode;
                 deviceID := deviceID;
                 reserved := nonEmptyList reserved;
                 raw := if includeRawData options then Some line else None |} in
            mkParseResult true (Some attendanceLog) None (nonEmptyList warnings2)
        end.

(** The [for] loop of [parseAttendanceLog]: [i] is the index of the head of
    [lines] in the filtered array; [attendances] and [batchWarnings] are the
    arrays [attendances] and [warnings] the loop pushes to. *)
Fixpoint parseLines (tza : Z) (options : ParserOptions) (lines : list string)
    (i : nat) (attendances : list AttendanceLog) (batchWarnings : list string)
    : ParseResult (list AttendanceLog) :=
  match lines with
  | [] => mkParseResult true (Some attendances) None (nonEmptyList batchWarnings)
  | raw :: rest =>
      if negb (Js.truthy raw) then
        parseLines tza options rest (S i) attendances batchWarnings
      else
        let line := Js.trim raw in
        let lineNumber := (i + 1)%nat in
        if negb (Js.truthy line) then
          parseLines tza options rest (S i) attendances batchWarnings
        else
          let result :=
            parseSingleAttendanceRecord tza line (Some lineNumber) options in
          let attendances :=
            match success result, data result with
            | true, Some d => attendances ++ [d]
            | _, _ => attendances
            end in
          let batchWarnings :=
            match warnings result with
            | Some w => batchWarnings ++ w
            | None => batchWarnings
            end in
          if falsy (error result) then
            parseLines tza options rest (S i) attendances batchWarnings
          else
            let message :=
              "Line " +:+ Js.ofNat lineNumber +:+ ": " +:+ template (error result) in
            if strictMode options then failure message
            else parseLines tza options rest (S i) attendances
                   (batchWarnings ++ [message])
  end.

Definition parseAttendanceLog (tza : Z) (data : Js.value)
    (options : ParserOptions) : ParseResult (list AttendanceLog) :=
  match data with
  | Js.VStr s =>
      if negb (Js.truthy s) then failure "Invalid or empty attendance data"
      else
        let lines :=
          List.filter (fun line => Js.truthy (Js.trim line))
            (Js.split LF (Js.trim s)) in
        parseLines tza options lines 0 [] []
  | _ => failure "Invalid or empty attendance data"
  end.

Definition COMMA : ascii := ",".

(** [Number.parseInt(x || "0", 10) || 0] *)
Definition count (o : option string) : Z :=
  default 0 (Js.parseInt (orElse o "0")).

Definition parseDeviceInfo (queryParams : gmap string string)
    : ParseResult DeviceInfo :=
  if falsy (queryParams !! "SN") then
    failure "Missing device serial number (SN parameter)"
  else
    let deviceInfo :=
      mkDeviceInfo (template (queryParams !! "SN")) "" 0 0 0 "" 0 0 0 0
        None None None None None in
    let deviceInfo :=
      if falsy (queryParams !! "INFO") then deviceInfo
      else
        let infoParts := Js.split COMMA (template (queryParams !! "INFO")) in
        let extended := (9 <? length infoParts)%nat in
        {| serialNumber := serialNumber deviceInfo;
           model := orElse (infoParts !! 0%nat) "";
           userCount := count (infoParts !! 1%nat);
           fpCount := count (infoParts !! 2%nat);
           recordCount := count (infoParts !! 3%nat);
           deviceIP := orElse (infoParts !! 4%nat) "";
           adminCount := count (infoParts !! 5%nat);
           passwordCount := count (infoParts !! 6%nat);
           cardCount := count (infoParts !! 7%nat);
           faceCount := count (infoParts !! 8%nat);
           firmware := if extended then orUndefined (infoParts !! 9%nat) else None;
           platform := if extended then orUndefined (infoParts !! 10%nat) else None;
           fingerVer := if extended then orUndefined (infoParts !! 11%nat) else None;
           faceVer := if extended then orUndefined (infoParts !! 12%nat) else None;
           pushVer := if extended then orUndefined (infoParts !! 13%nat) else None |} in
    mkParseResult true (Some deviceInfo) None None.

Definition validateAttendanceLog (log : AttendanceLog)
    : ParseResult AttendanceLog :=
  let errors : list string := [] in
  let errors :=
    if negb (Js.truthy (userID log))
       || (String.length (Js.trim (userID log)) =? 0)%nat
    then errors ++ ["User ID is required"] else errors in
  let errors :=
    match JsDate.getTime (timestamp log) with
    | None => errors ++ ["Valid timestamp is required"]
    | Some _ => errors
    end in
  let errors :=
    if negb (Js.includesNum VerifyType.values (verifyType log))
    then errors ++ ["Invalid verify type"] else errors in
  let errors :=
    if negb (Js.includesNum InOutMode.values (inOutMode log))
    then errors ++ ["Invalid in/out mode"] else errors in
  match errors with
  | [] => mkParseResult true (Some log) None None
  | _ => failure (Js.join ", " errors)
  end.

(** The two label tables, keyed by the enum numbers. *)
Definition VERIFY_TYPE_NAMES : gmap Z string :=
  list_to_map
    [(VerifyType.UNKNOWN, "Unknown"); (VerifyType.FINGERPRINT, "Fingerprint");
     (VerifyType.PASSWORD, "Password"); (VerifyType.CARD, "Card/RFID");
     (VerifyType.FACE, "Face Recognition"); (VerifyType.PALM, "Palm Recognition")].

Definition IN_OUT_MODE_NAMES : gmap Z string :=
  list_to_map
    [(InOutMode.CHECK_IN, "Check In"); (InOutMode.CHECK_OUT, "Check Out");
     (InOutMode.BREAK_OUT, "Break Out"); (InOutMode.BREAK_IN, "Break In");
     (InOutMode.OT_IN, "Overtime In"); (InOutMode.OT_OUT, "Overtime Out")].

(** [TABLE[type] || `Unknown (${type})`].  The number is printed in decimal,
    as JavaScript does for integers below 10^21 in magnitude. *)
Definition getVerifyTypeName (type : Z) : string :=
  orElse (VERIFY_TYPE_NAMES !! type) ("Unknown (" +:+ Js.ofZ type +:+ ")").

Definition getInOutModeName (mode : Z) : string :=
  orElse (IN_OUT_MODE_NAMES !! mode) ("Unknown (" +:+ Js.ofZ mode +:+ ")").

Definition isCheckIn (log : AttendanceLog) : bool :=
  (inOutMode log =? InOutMode.CHECK_IN)
  || (inOutMode log =? InOutMode.BREAK_IN)
  || (inOutMode log =? InOutMode.OT_IN).

Definition isCheckOut (log : AttendanceLog) : bool :=
  (inOutMode log =? InOutMode.CHECK_OUT)
  || (inOutMode log =? InOutMode.BREAK_OUT)
  || (inOutMode log =? InOutMode.OT_OUT).

End ZKTecoiClockParser.

Import ZKTecoiClockParser.

(** ** Vocabulary of the properties *)

(** A string of white space only: what a batch of blank lines is made of. *)
Fixpoint blank (s : string) : bool :=
  match s with
  | EmptyString => true
  | String c r => Js.isWhiteSpace c && blank r
  end.

(** What [trimStart] returns is empty or starts with a visible character. *)
Definition headVisible (s : string) : Prop :=
  match s with
  | EmptyString => True
  | String c _ => Js.isWhiteSpace c = false
  end.

(** The member values of the closed enums. *)
Definition inOutModes : list Z := [0; 1; 2; 3; 4; 5].
Definition verifyTypes : list Z := [0; 1; 2; 3; 15; 25].
Definition workCodes : list Z := [0; 1; 2; 3].

(** A raw field that does not name a member of an enum: it is empty, it does
    not start with an integer, or its integer is no member. *)
Definition notMember (members : list Z) (field : string) : Prop :=
  field = "" \/ Js.parseInt field = None
  \/ exists n, Js.parseInt field = Some n /\ n ∉ members.

(** An extended segment is kept when it is present and not empty. *)
Definition kept (segment : option string) (field : option string) : Prop :=
  forall s, field = Some s <-> (segment = Some s /\ s <> "").

(** The wall-clock reading [parseTimestamp] gets from a string that the
    [Date] constructor takes as local time, at the first attempt or at the
    second one (with the first space turned into [T]). *)
Definition localReading (timestampStr : string) : option Z :=
  let clean := Js.replaceAll "/" "-" (Js.trim timestampStr) in
  match JsDate.parse clean with
  | JsDate.LocalTime w => Some w
  | JsDate.UtcTime _ => None
  | JsDate.Invalid =>
      match JsDate.parse (Js.replaceFirst " " "T" clean) with
      | JsDate.LocalTime w => Some w
      | _ => None
      end
  end.

(** The instant of the wall-clock reading [w] in the zone [tza] is a time
    value. *)
Definition representable (tza w : Z) : Prop :=
  Z.abs (w - tza * JsDate.msPerMinute) <= JsDate.maxTime.

(** A line of tab-separated fields. *)
Definition tabbed (fields : list string) : string :=
  Js.join (String TAB "") fields.

(** The row of the README and of the test suite. *)
Definition sampleRow : string :=
  tabbed ["11"; "2025-08-27 10:57:49"; "0"; "25"; "0"; "0"; "0"; "0"; "0"; "0"].

(** A row of two fields: too short to be a record. *)
Definition shortRow : string := tabbed ["invalid"; "data"].

(** A body of three lines, the middle one blank and the third one short. *)
Definition bodyWithBlankLine : string :=
  Js.join (String LF "") [sampleRow; ""; shortRow].

(** The filtered array the loop of [parseAttendanceLog] runs over. *)
Definition nonBlankLines (body : string) : list string :=
  List.filter (fun line => Js.truthy (Js.trim line)) (Js.split LF (Js.trim body)).

(** The lines of [l] all parse. *)
Definition allParse (tza : Z) (options : ParserOptions) (l : list string) : Prop :=
  forall raw, raw ∈ l ->
    success (parseSingleAttendanceRecord tza (Js.trim raw) None options) = true.

(** A string that does not go on with a decimal digit. *)
Definition noLeadingDigit (rest : string) : Prop :=
  match rest with
  | EmptyString => True
  | String c _ => Js.digitValue c = None
  end.

(** The part one non-blank line of a batch has in the records ... *)
Definition lineRecords (tza : Z) (options : ParserOptions) (raw : string)
    : list AttendanceLog :=
  match data (parseSingleAttendanceRecord tza (Js.trim raw) None options) with
  | Some log => [log]
  | None => []
  end.

(** ... and, as line [i] (counted from 0) of the non-blank lines, in the
    warnings of a batch that is not strict: the warnings of its record, or
    its failure under its number. *)
Definition lineWarnings (tza : Z) (options : ParserOptions) (i : nat)
    (raw : string) : list string :=
  let result := parseSingleAttendanceRecord tza (Js.trim raw) None options in
  default [] (warnings result)
  ++ match error result with
     | Some e => ["Line " +:+ Js.ofNat (i + 1) +:+ ": " +:+ e]
     | None => []
     end.

(** The envelope of results: data exactly on success, an error exactly on
    failure, warnings on success only and never an empty list. *)
Definition wellFormedResult {T} (r : ParseResult T) : Prop :=
  (success r = true <-> data r <> None)
  /\ (success r = false <-> error r <> None)
  /\ (warnings r <> None -> success r = true)
  /\ warnings r <> Some [].

(** The four conditions of the validator. *)
Definition validLog (log : AttendanceLog) : Prop :=
  Js.trim (userID log) <> ""
  /\ JsDate.getTime (timestamp log) <> None
  /\ verifyType log ∈ verifyTypes
  /\ inOutMode log ∈ inOutModes.

(** The record of [sampleRow] when the device offset is the default. *)
Definition sampleLog : AttendanceLog :=
  {| userID := "11";
     timestamp := JsDate.mkDate (Some 1756277869000);
     inOutMode := InOutMode.CHECK_IN;
     verifyType := VerifyType.PALM;
     workCode := WorkCode.NORMAL;
     deviceID := Some 0;
     reserved := Some ["0"; "0"; "0"; "0"];
     raw := None |}.

(** The options with strict mode switched off. *)
Definition lenient (options : ParserOptions) : ParserOptions :=
  mkParserOptions false (includeRawData options) (timestampFormat options)
    (timezoneOffset options).

(** The comma segments of the INFO value; none when the value is missing or
    empty. *)
Definition infoSegments (queryParams : gmap string string) : list string :=
  match queryParams !! "INFO" with
  | Some info => if Js.truthy info then Js.split COMMA info else []
  | None => []
  end.

(** A record that no line gives: its user id is blank. *)
Definition unknownLog : AttendanceLog :=
  {| userID := " ";
     timestamp := JsDate.mkDate (Some 0);
     inOutMode := InOutMode.CHECK_IN;
     verifyType := VerifyType.UNKNOWN;
     workCode := WorkCode.NORMAL;
     deviceID := None;
     reserved := None;
     raw := None |}.

(** What a count read with [Number.parseInt(x || "0", 10) || 0] holds, told
    with exact integers: 0 when the segment is missing or has no integer at
    its head, and that integer as long as JavaScript holds it exactly (up to
    2^53 in magnitude). *)
Definition countReads (segment : option string) (c : Z) : Prop :=
  match segment ≫= Js.parseInt with
  | None => c = 0
  | Some n => Z.abs n <= 2 ^ 53 -> c = n
  end.

(** What an optional number read with [parseNumber] from a trimmed field
    holds: nothing when the field is missing or has no integer at its head,
    and that integer as long as JavaScript holds it exactly. *)
Definition numberReads (field : option string) (v : option Z) : Prop :=
  match field ≫= (fun f => Js.parseInt (Js.trim f)) with
  | None => v = None
  | Some n => Z.abs n <= 2 ^ 53 -> v = Some n
  end.

(** ** The built-ins *)

Section Strings.

Lemma split_not_nil sep s : Js.split sep s <> [].
Proof.
  destruct s as [|c r]; simpl; [discriminate|].
  destruct (Ascii.eqb c sep); [discriminate|].
  destruct (Js.split sep r); discriminate.
Qed.

Lemma split_empty sep : Js.split sep "" = [""].
Proof. reflexivity. Qed.

Lemma truthy_false s : Js.truthy s = false <-> s = "".
Proof. destruct s; simpl; split; congruence. Qed.

Lemma truthy_true s : Js.truthy s = true <-> s <> "".
Proof. destruct s; simpl; split; congruence. Qed.

Lemma trimStart_blank s : Js.trimStart s = "" <-> blank s = true.
Proof.
  induction s as [|c r IH]; simpl; [tauto|].
  destruct (Js.isWhiteSpace c); simpl; [exact IH|].
  split; discriminate.
Qed.

Lemma trimEnd_empty s : Js.trimEnd s = "" <-> blank s = true.
Proof.
  induction s as [|c r IH]; simpl; [tauto|].
  destruct (Js.trimEnd r) eqn:E.
  - destruct (Js.isWhiteSpace c); simpl.
    + tauto.
    + split; discriminate.
  - split; [discriminate|].
    intros H. apply andb_true_iff in H as [_ H].
    apply IH in H. discriminate.
Qed.

Lemma blank_trimStart s : blank s = true -> Js.trimStart s = "".
Proof. apply trimStart_blank. Qed.

Lemma trim_empty s : Js.trim s = "" <-> blank s = true.
Proof.
  unfold Js.trim. rewrite trimEnd_empty. split.
  - induction s as [|c r IH]; simpl; [tauto|].
    destruct (Js.isWhiteSpace c) eqn:E; simpl; [exact IH|].
    rewrite E. simpl. discriminate.
  - intros H. apply blank_trimStart in H. rewrite H. reflexivity.
Qed.

Lemma trimStart_headVisible s : headVisible (Js.trimStart s).
Proof.
  induction s as [|c r IH]; simpl; [exact I|].
  destruct (Js.isWhiteSpace c) eqn:E; [exact IH|exact E].
Qed.

Lemma trimStart_id s : headVisible s -> Js.trimStart s = s.
Proof. destruct s as [|c r]; simpl; [reflexivity|]. intros ->. reflexivity. Qed.

Lemma trimEnd_headVisible s : headVisible s -> headVisible (Js.trimEnd s).
Proof.
  destruct s as [|c r]; simpl; [tauto|]. intros H.
  destruct (Js.trimEnd r); rewrite ?H; exact H.
Qed.

Lemma trimEnd_idem s : Js.trimEnd (Js.trimEnd s) = Js.trimEnd s.
Proof.
  induction s as [|c r IH]; simpl; [reflexivity|].
  destruct (Js.trimEnd r) as [|c' r'] eqn:E.
  - destruct (Js.isWhiteSpace c) eqn:Ec; simpl; [reflexivity|].
    rewrite Ec. reflexivity.
  - simpl in *. rewrite IH. reflexivity.
Qed.

Lemma trim_idem s : Js.trim (Js.trim s) = Js.trim s.
Proof.
  unfold Js.trim.
  rewrite (trimStart_id (Js.trimEnd (Js.trimStart s))).
  - apply trimEnd_idem.
  - apply trimEnd_headVisible, trimStart_headVisible.
Qed.

End Strings.

(** ** The coercers *)

Section Coercers.

Lemma parseInt_empty : Js.parseInt "" = None.
Proof. reflexivity. Qed.

Lemma includes_inOutModes n :
  Js.includesNum InOutMode.values n = true <-> n ∈ inOutModes.
Proof.
  unfold inOutModes, Js.includesNum, InOutMode.values. cbn [existsb]. rewrite !orb_true_iff, !Z.eqb_eq, !elem_of_cons.
  rewrite elem_of_nil. intuition congruence.
Qed.

Lemma includes_verifyTypes n :
  Js.includesNum VerifyType.values n = true <-> n ∈ verifyTypes.
Proof.
  unfold verifyTypes, Js.includesNum, VerifyType.values. cbn [existsb]. rewrite !orb_true_iff, !Z.eqb_eq, !elem_of_cons.
  rewrite elem_of_nil. intuition congruence.
Qed.

Lemma parseInOutMode_Some v n :
  parseInOutMode (Some v) = Some n <->
  Js.parseInt v = Some n /\ n ∈ inOutModes.
Proof.
  unfold parseInOutMode. cbn [falsy template default].
  destruct v as [|c r]; [cbn; split; [done|intros [? _]; done]|].
  cbn [Js.truthy negb id]. rewrite <- includes_inOutModes.
  destruct (Js.parseInt (String c r)) as [m|]; [|split; [done|intros [? _]; done]].
  destruct (Js.includesNum InOutMode.values m) eqn:E; split.
  - intros [= <-]. auto.
  - intros [[= <-] _]. reflexivity.
  - done.
  - intros [[= <-] H]. congruence.
Qed.

Lemma parseVerifyType_Some v n :
  parseVerifyType (Some v) = Some n <->
  Js.parseInt v = Some n /\ n ∈ verifyTypes.
Proof.
  unfold parseVerifyType. cbn [falsy template default].
  destruct v as [|c r]; [cbn; split; [done|intros [? _]; done]|].
  cbn [Js.truthy negb id]. rewrite <- includes_verifyTypes.
  destruct (Js.parseInt (String c r)) as [m|]; [|split; [done|intros [? _]; done]].
  destruct (Js.includesNum VerifyType.values m) eqn:E; split.
  - intros [= <-]. auto.
  - intros [[= <-] _]. reflexivity.
  - done.
  - intros [[= <-] H]. congruence.
Qed.

Lemma parseInOutMode_None v :
  parseInOutMode (Some v) = None <-> notMember inOutModes v.
Proof.
  unfold notMember. split.
  - intros H. destruct (Js.parseInt v) as [n|] eqn:E; [|auto].
    right; right. exists n. split; [reflexivity|]. intros Hn.
    assert (parseInOutMode (Some v) = Some n) by (apply parseInOutMode_Some; auto).
    congruence.
  - intros H. destruct (parseInOutMode (Some v)) as [n|] eqn:E; [|reflexivity].
    apply parseInOutMode_Some in E as [E Hn].
    destruct H as [-> | [H | (m & H & Hm)]]; [discriminate| congruence |].
    rewrite E in H. injection H as <-. contradiction.
Qed.

Lemma parseVerifyType_None v :
  parseVerifyType (Some v) = None <-> notMember verifyTypes v.
Proof.
  unfold notMember. split.
  - intros H. destruct (Js.parseInt v) as [n|] eqn:E; [|auto].
    right; right. exists n. split; [reflexivity|]. intros Hn.
    assert (parseVerifyType (Some v) = Some n) by (apply parseVerifyType_Some; auto).
    congruence.
  - intros H. destruct (parseVerifyType (Some v)) as [n|] eqn:E; [|reflexivity].
    apply parseVerifyType_Some in E as [E Hn].
    destruct H as [-> | [H | (m & H & Hm)]]; [discriminate| congruence |].
    rewrite E in H. injection H as <-. contradiction.
Qed.

End Coercers.

(** ** One line *)

Section Single.
Variables (tza : Z) (line : string) (ln : option nat) (options : ParserOptions).

Lemma parseTimestamp_empty off : parseTimestamp tza "" off = None.
Proof. reflexivity. Qed.

(** The successful path of [parseSingleAttendanceRecord], field by field. *)
Lemma parseSingle_ok f0 f1 f2 f3 rest ts :
  Js.split TAB line = f0 :: f1 :: f2 :: f3 :: rest ->
  Js.trim f0 <> "" ->
  parseTimestamp tza (Js.trim f1) (default 4 (timezoneOffset options)) = Some ts ->
  exists log ws,
    parseSingleAttendanceRecord tza line ln options
      = mkParseResult true (Some log) None (nonEmptyList ws)
    /\ userID log = Js.trim f0
    /\ timestamp log = ts
    /\ inOutMode log = default InOutMode.CHECK_IN (parseInOutMode (Some (Js.trim f2)))
    /\ verifyType log = default VerifyType.UNKNOWN (parseVerifyType (Some (Js.trim f3)))
    /\ workCode log =
         (if falsy (rest !! 0%nat) then WorkCode.NORMAL
          else parseWorkCode (Js.trim (template (rest !! 0%nat))))
    /\ ws =
         match parseInOutMode (Some (Js.trim f2)) with
         | None => ["Unknown in/out mode: " +:+ Js.trim f2 +:+ ", using CHECK_IN"]
         | Some _ => []
         end ++
         match parseVerifyType (Some (Js.trim f3)) with
         | None => ["Unknown verify type: " +:+ Js.trim f3 +:+ ", using UNKNOWN"]
         | Some _ => []
         end.
Proof.
  intros Hsplit H0 Hts.
  assert (H1 : Js.trim f1 <> "").
  { intros E. rewrite E, parseTimestamp_empty in Hts. discriminate. }
  apply truthy_true in H0, H1.
  unfold parseSingleAttendanceRecord. rewrite Hsplit.
  change (length (f0 :: f1 :: f2 :: f3 :: rest) <? 4)%nat with false.
  cbv iota.
  change ((f0 :: f1 :: f2 :: f3 :: rest) !! 0%nat) with (Some f0).
  change ((f0 :: f1 :: f2 :: f3 :: rest) !! 1%nat) with (Some f1).
  change ((f0 :: f1 :: f2 :: f3 :: rest) !! 2%nat) with (Some f2).
  change ((f0 :: f1 :: f2 :: f3 :: rest) !! 3%nat) with (Some f3).
  change ((f0 :: f1 :: f2 :: f3 :: rest) !! 4%nat) with (rest !! 0%nat).
  change ((f0 :: f1 :: f2 :: f3 :: rest) !! 5%nat) with (rest !! 1%nat).
  cbn [fmap option_fmap option_map falsy template default id].
  rewrite H0, H1. cbn [negb]. rewrite Hts.
  eexists. eexists. split; [reflexivity|].
  cbn [userID timestamp inOutMode verifyType workCode].
  repeat split.
  destruct (parseVerifyType (Some (Js.trim f3))); [|reflexivity].
  symmetry. apply app_nil_r.
Qed.

(** Fewer than four fields: the only outcome is the failure that counts them. *)
Lemma parseSingle_short :
  (length (Js.split TAB line) < 4)%nat ->
  parseSingleAttendanceRecord tza line ln options
    = failure ("Insufficient fields (" +:+ Js.ofNat (length (Js.split TAB line))
               +:+ "/4 minimum required)").
Proof.
  intros H. unfold parseSingleAttendanceRecord.
  apply Nat.ltb_lt in H. rewrite H. reflexivity.
Qed.

(** A result is a failure with a message, or a success with a record. *)
Lemma parseSingle_cases :
  (exists e, e <> "" /\ parseSingleAttendanceRecord tza line ln options = failure e)
  \/ (exists log ws,
        parseSingleAttendanceRecord tza line ln options
          = mkParseResult true (Some log) None ws).
Proof.
  unfold parseSingleAttendanceRecord.
  destruct (length (Js.split TAB line) <? 4)%nat.
  { left. eexists. split; [|reflexivity]. discriminate. }
  destruct (falsy (Js.trim <$> Js.split TAB line !! 0%nat)).
  { left. eexists. split; [|reflexivity]. discriminate. }
  destruct (falsy (Js.trim <$> Js.split TAB line !! 1%nat)).
  { left. eexists. split; [|reflexivity]. discriminate. }
  destruct (parseTimestamp _ _ _).
  - right. eexists. eexists. reflexivity.
  - left. eexists. split; [|reflexivity]. discriminate.
Qed.

End Single.

(** ** The batch loop *)

Section Batch.
Variables (tza : Z) (options : ParserOptions).

Lemma trim_truthy raw : Js.truthy (Js.trim raw) = true -> Js.truthy raw = true.
Proof. destruct raw; [discriminate|reflexivity]. Qed.

(** One turn of the loop on a line that parses. *)
Lemma parseLines_step_ok raw rest i att w log ws :
  Js.truthy (Js.trim raw) = true ->
  parseSingleAttendanceRecord tza (Js.trim raw) None options
    = mkParseResult true (Some log) None ws ->
  parseLines tza options (raw :: rest) i att w
    = parseLines tza options rest (S i) (att ++ [log]) (w ++ default [] ws).
Proof.
  intros Ht Hr. cbn [parseLines].
  rewrite (trim_truthy _ Ht), Ht. cbn [negb].
  change (parseSingleAttendanceRecord tza (Js.trim raw) (Some (i + 1)%nat) options)
    with (parseSingleAttendanceRecord tza (Js.trim raw) None options).
  rewrite Hr. cbn [success data error warnings falsy].
  destruct ws; cbn [default]; [reflexivity|].
  rewrite app_nil_r. reflexivity.
Qed.

(** One turn of the loop on a line that fails. *)
Lemma parseLines_step_fail raw rest i att w e :
  Js.truthy (Js.trim raw) = true ->
  e <> "" ->
  parseSingleAttendanceRecord tza (Js.trim raw) None options = failure e ->
  parseLines tza options (raw :: rest) i att w
    = if strictMode options
      then failure ("Line " +:+ Js.ofNat (i + 1) +:+ ": " +:+ e)
      else parseLines tza options rest (S i) att
             (w ++ ["Line " +:+ Js.ofNat (i + 1) +:+ ": " +:+ e]).
Proof.
  intros Ht He Hr. cbn [parseLines].
  rewrite (trim_truthy _ Ht), Ht. cbn [negb].
  change (parseSingleAttendanceRecord tza (Js.trim raw) (Some (i + 1)%nat) options)
    with (parseSingleAttendanceRecord tza (Js.trim raw) None options).
  rewrite Hr. cbn [failure success data error warnings falsy template default id].
  apply truthy_true in He. rewrite He. reflexivity.
Qed.

(** Without strict mode the loop runs to its end, and its end is a success. *)
Lemma parseLines_lenient lines : forall i att w,
  strictMode options = false ->
  success (parseLines tza options lines i att w) = true.
Proof.
  induction lines as [|raw rest IH]; intros i att w Hs; [reflexivity|].
  cbn [parseLines].
  destruct (negb (Js.truthy raw)); [now apply IH|].
  destruct (negb (Js.truthy (Js.trim raw))); [now apply IH|].
  destruct (falsy _); [now apply IH|].
  rewrite Hs. now apply IH.
Qed.

(** Lines that all parse move the loop forward by their number and add one
    record each; the warnings so far stay in front. *)
Lemma parseLines_good pre : forall rest i att w,
  Forall (fun raw => Js.truthy (Js.trim raw) = true /\
            success (parseSingleAttendanceRecord tza (Js.trim raw) None options)
              = true) pre ->
  exists att' w',
    parseLines tza options (pre ++ rest) i att w
      = parseLines tza options rest (i + length pre) (att ++ att') (w ++ w')
    /\ length att' = length pre.
Proof.
  induction pre as [|raw pre IH]; intros rest i att w Hgood.
  - exists [], []. rewrite !app_nil_r, Nat.add_0_r. auto.
  - apply Forall_cons in Hgood as [[Ht Hok] Hgood].
    destruct (parseSingle_cases tza (Js.trim raw) None options)
      as [(e & _ & He) | (log & ws & Hr)].
    { rewrite He in Hok. discriminate. }
    destruct (IH rest (S i) (att ++ [log]) (w ++ default [] ws) Hgood)
      as (att' & w' & Heq & Hlen).
    exists (log :: att'), (default [] ws ++ w').
    cbn [app length]. rewrite (parseLines_step_ok _ _ _ _ _ _ _ Ht Hr), Heq.
    rewrite <- !app_assoc. cbn [app].
    rewrite Nat.add_succ_r. auto.
Qed.

End Batch.

(** ** Timestamps *)

Section Timestamps.

Lemma TimeClip_in t : Z.abs t <= JsDate.maxTime -> JsDate.TimeClip t = Some t.
Proof. intros H. unfold JsDate.TimeClip. apply Z.leb_le in H. rewrite H. reflexivity. Qed.

Lemma localReading_truthy s w : localReading s = Some w -> Js.truthy s = true.
Proof. destruct s; [discriminate|reflexivity]. Qed.

(** On a local date-time form the offset of the process cancels out: the
    result is the wall-clock reading moved by the offset of the device. *)
Lemma parseTimestamp_local tza s off w :
  localReading s = Some w ->
  representable tza w ->
  parseTimestamp tza s off
    = Some (JsDate.ofNumber (w - off * JsDate.msPerHour)).
Proof.
  intros Hr Hin. unfold parseTimestamp.
  rewrite (localReading_truthy _ _ Hr). cbn [negb].
  unfold localReading in Hr. unfold JsDate.ofString.
  assert (Hshift : w - tza * JsDate.msPerMinute
                   + (- off * 60 - - tza) * 60 * 1000
                   = w - off * JsDate.msPerHour).
  { unfold JsDate.msPerMinute, JsDate.msPerHour. lia. }
  destruct (JsDate.parse (Js.replaceAll "/" "-" (Js.trim s))) as [|w1|t1].
  - cbn [JsDate.getTime].
    destruct (JsDate.parse _) as [|w2|t2]; try discriminate.
    injection Hr as ->. rewrite (TimeClip_in _ Hin).
    cbn [JsDate.getTime JsDate.getTimezoneOffset].
    rewrite Hshift. reflexivity.
  - injection Hr as ->. rewrite (TimeClip_in _ Hin).
    cbn [JsDate.getTime JsDate.getTimezoneOffset].
    rewrite Hshift. reflexivity.
  - discriminate.
Qed.

(** X1.  Two processes in different zones agree on local date-time forms:
    on a string that the [Date] constructor reads as local time
    [parseTimestamp] returns the same result in both, as long as the instant
    is a time value in both. *)
Lemma parseTimestamp_local_agree tza1 tza2 s off w :
  localReading s = Some w ->
  representable tza1 w -> representable tza2 w ->
  parseTimestamp tza1 s off = parseTimestamp tza2 s off.
Proof.
  intros Hr H1 H2.
  rewrite (parseTimestamp_local tza1 s off w Hr H1).
  rewrite (parseTimestamp_local tza2 s off w Hr H2). reflexivity.
Qed.

End Timestamps.

(** ** The properties of the specification *)

(** C1.  The claim: for every timestamp string and device offset,
    [parseTimestamp] yields the same instant whatever the time zone of the
    executing process.  The code misses it on the forms the [Date]
    constructor reads as UTC: for the date-only string ["2025-08-27"] and the
    device offset 4 a process at UTC answers 2025-08-26T20:00:00Z and a
    process at UTC+4 answers 2025-08-27T00:00:00Z. *)
Theorem parseTimestamp_date_only_follows_process_zone :
  parseTimestamp 0 "2025-08-27" 4
    = Some (JsDate.mkDate (Some 1756238400000))
  /\ parseTimestamp 240 "2025-08-27" 4
    = Some (JsDate.mkDate (Some 1756252800000))
  /\ parseTimestamp 0 "2025-08-27" 4 <> parseTimestamp 240 "2025-08-27" 4.
Proof. repeat split; vm_compute; congruence. Qed.

(** C2, as stated, fails: the one-space body is empty after trimming, and
    the batch parser does not fail on it. *)
Lemma whitespace_body_is_not_a_failure :
  Js.trim " " = ""
  /\ success (parseAttendanceLog 0 (Js.VStr " ") noOptions) = true.
Proof. split; reflexivity. Qed.

(** C2, amended.  Without strict mode [parseAttendanceLog] fails exactly
    when its input is not a string or is the empty string, the test being
    made before any trimming.  In either mode a non-empty input of white
    space only (blank lines only) gives success with zero records and no
    warnings, and an empty or non-string input gives the failure. *)
Theorem parseAttendanceLog_fails_on_empty_input_only tza data options :
  (strictMode options = false ->
     (success (parseAttendanceLog tza data options) = false
      <-> ~ exists s, data = Js.VStr s /\ s <> ""))
  /\ (forall s, data = Js.VStr s -> s <> "" -> blank s = true ->
        parseAttendanceLog tza data options
          = mkParseResult true (Some []) None None)
  /\ ((forall s, data = Js.VStr s -> s = "") ->
        parseAttendanceLog tza data options
          = failure "Invalid or empty attendance data").
Proof.
  split; [|split].
  - intros Hs. destruct data as [| |b|n|s|];
      try (split; [intros _ (s & [=] & _) | reflexivity]).
    destruct s as [|c r].
    + split; [intros _ (s & [= <-] & H); congruence | reflexivity].
    + cbn [parseAttendanceLog Js.truthy negb].
      rewrite (parseLines_lenient tza options _ _ _ _ Hs).
      split; [discriminate|]. intros H. exfalso. apply H.
      exists (String c r). split; [reflexivity|discriminate].
  - intros s -> Hne Hb. unfold parseAttendanceLog.
    apply truthy_true in Hne. rewrite Hne. cbn [negb].
    apply trim_empty in Hb. rewrite Hb. reflexivity.
  - intros H. destruct data as [| |b|n|s|]; try reflexivity.
    rewrite (H s eq_refl). reflexivity.
Qed.

Lemma parseAttendanceLog_fails_on_empty_input_only_witness :
  (success (parseAttendanceLog 0 (Js.VStr "x") noOptions) = false
   <-> ~ exists s, Js.VStr "x" = Js.VStr s /\ s <> "")
  /\ parseAttendanceLog 0 (Js.VStr (String LF "  ")) noOptions
       = mkParseResult true (Some []) None None
  /\ parseAttendanceLog 0 Js.VUndefined noOptions
       = failure "Invalid or empty attendance data".
Proof.
  split; [|split].
  - apply (proj1 (parseAttendanceLog_fails_on_empty_input_only
                    0 (Js.VStr "x") noOptions)).
    reflexivity.
  - apply (proj1 (proj2 (parseAttendanceLog_fails_on_empty_input_only
                    0 (Js.VStr (String LF "  ")) noOptions)) (String LF "  "));
      [reflexivity | discriminate | reflexivity].
  - apply (proj2 (proj2 (parseAttendanceLog_fails_on_empty_input_only
                    0 Js.VUndefined noOptions))).
    intros s H. discriminate H.
Defined.

(** C3.  The claim: without strict mode, a body with exactly one malformed
    line among lines that parse gives success, one record per good line and
    a warning that carries the 1-based number the malformed line has in the
    body, blank lines counted.  The code numbers the lines after it has
    dropped the blank ones: in a body whose second line is blank and whose
    third line is short, the warning says line 2. *)
Theorem lenient_warning_does_not_count_blank_lines :
  Js.split LF bodyWithBlankLine = [sampleRow; ""; shortRow]
  /\ success (parseSingleAttendanceRecord 0 sampleRow None noOptions) = true
  /\ success (parseSingleAttendanceRecord 0 shortRow None noOptions) = false
  /\ exists log,
       parseAttendanceLog 0 (Js.VStr bodyWithBlankLine) noOptions
         = mkParseResult true (Some [log]) None
             (Some ["Line 2: Insufficient fields (2/4 minimum required)"]).
Proof. repeat split. eexists. vm_compute. reflexivity. Qed.

(** C4.  The claim: in strict mode the batch stops at the first line that
    fails, with a failure whose message starts with [Line N:], N being the
    1-based number of that line.  The abort and the prefix are there, the
    number is the one of C3: for the short third line of the body above the
    message says line 2. *)
Theorem strict_error_does_not_count_blank_lines :
  Js.split LF bodyWithBlankLine = [sampleRow; ""; shortRow]
  /\ success (parseSingleAttendanceRecord 0 sampleRow None noOptions) = true
  /\ parseAttendanceLog 0 (Js.VStr bodyWithBlankLine)
       (mkParserOptions true false None None)
       = failure "Line 2: Insufficient fields (2/4 minimum required)".
Proof. repeat split. Qed.

Section BatchModes.
Variables (tza : Z) (options : ParserOptions).

(** What the filter keeps is not blank. *)
Lemma nonBlankLines_truthy body raw :
  raw ∈ nonBlankLines body -> Js.truthy (Js.trim raw) = true.
Proof.
  unfold nonBlankLines. rewrite list_elem_of_In, filter_In. tauto.
Qed.

Lemma parseAttendanceLog_lines body :
  body <> "" ->
  parseAttendanceLog tza (Js.VStr body) options
    = parseLines tza options (nonBlankLines body) 0 [] [].
Proof.
  intros H. apply truthy_true in H. unfold parseAttendanceLog.
  rewrite H. reflexivity.
Qed.

Lemma allParse_good body l :
  (forall raw, raw ∈ l -> raw ∈ nonBlankLines body) ->
  allParse tza options l ->
  Forall (fun raw => Js.truthy (Js.trim raw) = true /\
            success (parseSingleAttendanceRecord tza (Js.trim raw) None options)
              = true) l.
Proof.
  intros Hin Hall. apply Forall_forall. intros raw Hraw. split.
  - apply (nonBlankLines_truthy body), Hin, Hraw.
  - apply Hall, Hraw.
Qed.

(** X11.  Without strict mode: when one non-blank line fails and the others parse,
    the batch succeeds with one record per good line and with a warning
    that carries the message of the failure and the position of the line
    among the non-blank lines. *)
Lemma lenient_one_bad_line body pre bad post e :
  strictMode options = false ->
  body <> "" ->
  nonBlankLines body = pre ++ bad :: post ->
  allParse tza options (pre ++ post) ->
  parseSingleAttendanceRecord tza (Js.trim bad) None options = failure e ->
  exists records ws,
    parseAttendanceLog tza (Js.VStr body) options
      = mkParseResult true (Some records) None (Some ws)
    /\ length records = (length pre + length post)%nat
    /\ ("Line " +:+ Js.ofNat (length pre + 1) +:+ ": " +:+ e) ∈ ws.
Proof.
  intros Hs Hbody Hlines Hall Hbad.
  assert (Hin : forall raw, raw ∈ pre ++ bad :: post -> raw ∈ nonBlankLines body)
    by (rewrite Hlines; auto).
  assert (He : e <> "").
  { destruct (parseSingle_cases tza (Js.trim bad) None options)
      as [(e' & Hne & He') | (log & ws & Hr)]; rewrite Hbad in *.
    - injection He' as ->. exact Hne.
    - discriminate. }
  rewrite (parseAttendanceLog_lines _ Hbody), Hlines.
  destruct (parseLines_good tza options pre (bad :: post) 0 [] [])
    as (att1 & w1 & Heq1 & Hlen1).
  { apply (allParse_good body).
    - intros raw Hraw. apply Hin. set_solver.
    - intros raw Hraw. apply Hall. set_solver. }
  rewrite Heq1. cbn [app Nat.add].
  rewrite (parseLines_step_fail tza options bad post _ _ _ e); [|
    apply (nonBlankLines_truthy body), Hin; set_solver | exact He | exact Hbad].
  rewrite Hs.
  destruct (parseLines_good tza options post [] (S (length pre)) att1
              (w1 ++ ["Line " +:+ Js.ofNat (length pre + 1) +:+ ": " +:+ e]))
    as (att2 & w2 & Heq2 & Hlen2).
  { apply (allParse_good body).
    - intros raw Hraw. apply Hin. set_solver.
    - intros raw Hraw. apply Hall. set_solver. }
  rewrite app_nil_r in Heq2. rewrite Heq2. cbn [parseLines].
  exists (att1 ++ att2),
    ((w1 ++ ["Line " +:+ Js.ofNat (length pre + 1) +:+ ": " +:+ e]) ++ w2).
  split; [|split].
  - f_equal. destruct w1; reflexivity.
  - rewrite length_app. lia.
  - set_solver.
Qed.

(** X12.  In strict mode: the first non-blank line that fails ends the batch with
    its message and its position among the non-blank lines, whatever
    follows it. *)
Lemma strict_first_bad_line body pre bad post e :
  strictMode options = true ->
  body <> "" ->
  nonBlankLines body = pre ++ bad :: post ->
  allParse tza options pre ->
  parseSingleAttendanceRecord tza (Js.trim bad) None options = failure e ->
  parseAttendanceLog tza (Js.VStr body) options
    = failure ("Line " +:+ Js.ofNat (length pre + 1) +:+ ": " +:+ e).
Proof.
  intros Hs Hbody Hlines Hall Hbad.
  assert (Hin : forall raw, raw ∈ pre ++ bad :: post -> raw ∈ nonBlankLines body)
    by (rewrite Hlines; auto).
  assert (He : e <> "").
  { destruct (parseSingle_cases tza (Js.trim bad) None options)
      as [(e' & Hne & He') | (log & ws & Hr)]; rewrite Hbad in *.
    - injection He' as ->. exact Hne.
    - discriminate. }
  rewrite (parseAttendanceLog_lines _ Hbody), Hlines.
  destruct (parseLines_good tza options pre (bad :: post) 0 [] [])
    as (att1 & w1 & Heq1 & Hlen1).
  { apply (allParse_good body).
    - intros raw Hraw. apply Hin. set_solver.
    - exact Hall. }
  rewrite Heq1. cbn [app Nat.add].
  rewrite (parseLines_step_fail tza options bad post _ _ _ e); [|
    apply (nonBlankLines_truthy body), Hin; set_solver | exact He | exact Hbad].
  rewrite Hs. reflexivity.
Qed.

End BatchModes.

Section Fields.
Variables (tza : Z) (line : string) (ln : option nat) (options : ParserOptions).

(** C5.  The claim: a work-code field that is absent, empty, unparsable or
    an integer outside {0,1,2,3} gives the work code NORMAL, without a
    warning.  [parseWorkCode] keeps every integer it reads: the row with
    the work-code field [7] gives a record with work code 7, no member of
    the enum, and no warning. *)
Theorem work_code_out_of_enum_is_kept :
  parseWorkCode "7" = 7
  /\ (7 ∉ workCodes)
  /\ exists log,
       parseSingleAttendanceRecord 0
         (tabbed ["11"; "2025-08-27 10:57:49"; "0"; "25"; "7"]) None noOptions
         = mkParseResult true (Some log) None None
       /\ workCode log = 7.
Proof.
  split; [reflexivity|]. split.
  - unfold workCodes. rewrite !elem_of_cons, elem_of_nil. lia.
  - eexists. split; vm_compute; reflexivity.
Qed.

(** X10.  The part of C5 the code does: a work-code field that is absent, empty
    or without a leading integer gives NORMAL, and the warnings of the record
    are those of the in/out mode and of the verify type only. *)
Lemma work_code_defaults f0 f1 f2 f3 rest ts :
  Js.split TAB line = f0 :: f1 :: f2 :: f3 :: rest ->
  Js.trim f0 <> "" ->
  parseTimestamp tza (Js.trim f1) (default 4 (timezoneOffset options)) = Some ts ->
  (rest = [] \/ exists f4, rest !! 0%nat = Some f4 /\ Js.parseInt (Js.trim f4) = None) ->
  exists log ws,
    parseSingleAttendanceRecord tza line ln options
      = mkParseResult true (Some log) None (nonEmptyList ws)
    /\ workCode log = WorkCode.NORMAL
    /\ forall w, w ∈ ws ->
         w = "Unknown in/out mode: " +:+ Js.trim f2 +:+ ", using CHECK_IN"
         \/ w = "Unknown verify type: " +:+ Js.trim f3 +:+ ", using UNKNOWN".
Proof.
  intros Hsplit H0 Hts H4.
  destruct (parseSingle_ok tza line ln options _ _ _ _ _ _ Hsplit H0 Hts)
    as (log & ws & Hr & _ & _ & _ & _ & Hw & Hws).
  exists log, ws. split; [exact Hr|]. split.
  - rewrite Hw. destruct H4 as [-> | (f4 & -> & Hp)]; [reflexivity|].
    cbn [falsy template default id]. destruct (negb (Js.truthy f4)); [reflexivity|].
    unfold parseWorkCode. rewrite Hp. reflexivity.
  - intros w. rewrite Hws.
    destruct (parseInOutMode _), (parseVerifyType _); cbn [app];
      rewrite ?elem_of_cons, ?elem_of_nil; tauto.
Qed.

(** C6.  A line with at least four fields, a user id and a timestamp that
    normalizes always parses.  When its in/out-mode field (trimmed) is empty,
    has no leading integer or names no member of the enum, the record has
    the mode CHECK_IN and the warnings hold one that quotes the field; the
    same for the verify-method field, with UNKNOWN. *)
Theorem unknown_mode_and_method_default_with_warning f0 f1 f2 f3 rest ts :
  Js.split TAB line = f0 :: f1 :: f2 :: f3 :: rest ->
  Js.trim f0 <> "" ->
  parseTimestamp tza (Js.trim f1) (default 4 (timezoneOffset options)) = Some ts ->
  exists log,
    success (parseSingleAttendanceRecord tza line ln options) = true
    /\ data (parseSingleAttendanceRecord tza line ln options) = Some log
    /\ error (parseSingleAttendanceRecord tza line ln options) = None
    /\ (notMember inOutModes (Js.trim f2) ->
          inOutMode log = InOutMode.CHECK_IN
          /\ exists ws,
               warnings (parseSingleAttendanceRecord tza line ln options) = Some ws
               /\ ("Unknown in/out mode: " +:+ Js.trim f2 +:+ ", using CHECK_IN") ∈ ws)
    /\ (notMember verifyTypes (Js.trim f3) ->
          verifyType log = VerifyType.UNKNOWN
          /\ exists ws,
               warnings (parseSingleAttendanceRecord tza line ln options) = Some ws
               /\ ("Unknown verify type: " +:+ Js.trim f3 +:+ ", using UNKNOWN") ∈ ws).
Proof.
  intros Hsplit H0 Hts.
  destruct (parseSingle_ok tza line ln options _ _ _ _ _ _ Hsplit H0 Hts)
    as (log & ws & Hr & _ & _ & Hm & Hv & _ & Hws).
  exists log. rewrite Hr. cbn [success data error warnings].
  split; [reflexivity|]. split; [reflexivity|]. split; [reflexivity|]. split.
  - intros Hn. apply parseInOutMode_None in Hn. rewrite Hn in Hm, Hws.
    split; [exact Hm|]. exists ws. split.
    + rewrite Hws. reflexivity.
    + rewrite Hws. apply elem_of_app. left. apply list_elem_of_singleton.
      reflexivity.
  - intros Hn. apply parseVerifyType_None in Hn. rewrite Hn in Hv, Hws.
    split; [exact Hv|]. exists ws. split.
    + rewrite Hws. destruct (parseInOutMode _); reflexivity.
    + rewrite Hws. apply elem_of_app. right. apply list_elem_of_singleton.
      reflexivity.
Qed.

End Fields.

Lemma unknown_mode_and_method_default_with_warning_witness :
  exists log,
    data (parseSingleAttendanceRecord 0
            (tabbed ["11"; "2025-08-27 10:57:49"; "x"; "99"]) None noOptions)
      = Some log
    /\ inOutMode log = InOutMode.CHECK_IN
    /\ verifyType log = VerifyType.UNKNOWN.
Proof.
  destruct (unknown_mode_and_method_default_with_warning 0
              (tabbed ["11"; "2025-08-27 10:57:49"; "x"; "99"]) None noOptions
              "11" "2025-08-27 10:57:49" "x" "99" []
              (JsDate.mkDate (Some 1756277869000)))
    as (log & _ & Hd & _ & Hm & Hv).
  - reflexivity.
  - discriminate.
  - reflexivity.
  - exists log. split; [exact Hd|]. split.
    + apply Hm. right. left. reflexivity.
    + apply Hv. right. right. exists 99. split; [reflexivity|].
      unfold verifyTypes. rewrite !elem_of_cons, elem_of_nil. lia.
Defined.

(** C7.  A line with at least four fields, a user id, a timestamp that
    normalizes, and mode and method fields that name members of their enums
    parses without warnings into a record whose user id is field 0
    (trimmed), whose in/out mode is the integer of field 2 and whose verify
    method is the integer of field 3.  The row of the README parses to user
    ["11"], CHECK_IN, PALM, NORMAL, without warnings, in every process whose
    zone is within a day of UTC. *)
Theorem well_formed_row_is_reflected :
  (forall tza line ln options f0 f1 f2 f3 rest ts mode method,
     Js.split TAB line = f0 :: f1 :: f2 :: f3 :: rest ->
     Js.trim f0 <> "" ->
     parseTimestamp tza (Js.trim f1) (default 4 (timezoneOffset options)) = Some ts ->
     Js.parseInt (Js.trim f2) = Some mode -> mode ∈ inOutModes ->
     Js.parseInt (Js.trim f3) = Some method -> method ∈ verifyTypes ->
     exists log,
       parseSingleAttendanceRecord tza line ln options
         = mkParseResult true (Some log) None None
       /\ userID log = Js.trim f0
       /\ timestamp log = ts
       /\ inOutMode log = mode
       /\ verifyType log = method)
  /\ (forall tza ln,
        Z.abs tza <= 1440 ->
        exists log,
          parseSingleAttendanceRecord tza sampleRow ln noOptions
            = mkParseResult true (Some log) None None
          /\ userID log = "11"
          /\ timestamp log = JsDate.mkDate (Some 1756277869000)
          /\ inOutMode log = InOutMode.CHECK_IN
          /\ verifyType log = VerifyType.PALM
          /\ workCode log = WorkCode.NORMAL).
Proof.
  split.
  - intros tza line ln options f0 f1 f2 f3 rest ts mode method
      Hsplit H0 Hts Hm Hmi Hv Hvi.
    destruct (parseSingle_ok tza line ln options _ _ _ _ _ _ Hsplit H0 Hts)
      as (log & ws & Hr & Hu & Ht & Hmode & Hmethod & _ & Hws).
    assert (Em : parseInOutMode (Some (Js.trim f2)) = Some mode)
      by (apply parseInOutMode_Some; auto).
    assert (Ev : parseVerifyType (Some (Js.trim f3)) = Some method)
      by (apply parseVerifyType_Some; auto).
    rewrite Em in Hmode, Hws. rewrite Ev in Hmethod, Hws.
    exists log. rewrite Hr, Hws. repeat split; assumption.
  - intros tza ln Htza.
    assert (Hts : parseTimestamp tza (Js.trim "2025-08-27 10:57:49")
                    (default 4 (timezoneOffset noOptions))
                  = Some (JsDate.mkDate (Some 1756277869000))).
    { rewrite (parseTimestamp_local tza _ _ 1756292269000); [reflexivity..|].
      unfold representable, JsDate.msPerMinute, JsDate.maxTime. lia. }
    destruct (parseSingle_ok tza sampleRow ln noOptions
                "11" "2025-08-27 10:57:49" "0" "25"
                ["0"; "0"; "0"; "0"; "0"; "0"] _ eq_refl ltac:(discriminate) Hts)
      as (log & ws & Hr & Hu & Ht & Hmode & Hmethod & Hw & Hws).
    exists log. rewrite Hr, Hws.
    split; [reflexivity|]. split; [exact Hu|]. split; [exact Ht|].
    split; [exact Hmode|]. split; [exact Hmethod|exact Hw].
Qed.

Lemma well_formed_row_is_reflected_witness :
  (exists log,
     parseSingleAttendanceRecord 0
       (tabbed [" 7 "; "2025/08/27 10:57:49"; "5"; "15"]) None noOptions
       = mkParseResult true (Some log) None None
     /\ userID log = "7"
     /\ timestamp log = JsDate.mkDate (Some 1756277869000)
     /\ inOutMode log = 5
     /\ verifyType log = 15)
  /\ (exists log,
        parseSingleAttendanceRecord 240 sampleRow None noOptions
          = mkParseResult true (Some log) None None
        /\ userID log = "11"
        /\ timestamp log = JsDate.mkDate (Some 1756277869000)
        /\ inOutMode log = InOutMode.CHECK_IN
        /\ verifyType log = VerifyType.PALM
        /\ workCode log = WorkCode.NORMAL).
Proof.
  split.
  - apply (proj1 well_formed_row_is_reflected 0
             (tabbed [" 7 "; "2025/08/27 10:57:49"; "5"; "15"]) None noOptions
             " 7 " "2025/08/27 10:57:49" "5" "15" []
             (JsDate.mkDate (Some 1756277869000)) 5 15).
    + reflexivity.
    + discriminate.
    + reflexivity.
    + reflexivity.
    + unfold inOutModes. rewrite !elem_of_cons. lia.
    + reflexivity.
    + unfold verifyTypes. rewrite !elem_of_cons. lia.
  - apply (proj2 well_formed_row_is_reflected 240 None). simpl. lia.
Defined.

(** C8.  A line that splits on the tab into fewer than four fields fails:
    no record is produced and the message counts the fields found against
    the four required. *)
Theorem too_few_fields_is_a_failure tza line ln options :
  (length (Js.split TAB line) < 4)%nat ->
  success (parseSingleAttendanceRecord tza line ln options) = false
  /\ data (parseSingleAttendanceRecord tza line ln options) = None
  /\ warnings (parseSingleAttendanceRecord tza line ln options) = None
  /\ error (parseSingleAttendanceRecord tza line ln options)
       = Some ("Insufficient fields ("
               +:+ Js.ofNat (length (Js.split TAB line))
               +:+ "/4 minimum required)").
Proof.
  intros H. rewrite (parseSingle_short tza line ln options H).
  repeat split.
Qed.

Lemma too_few_fields_is_a_failure_witness :
  success (parseSingleAttendanceRecord 0 shortRow None noOptions) = false
  /\ data (parseSingleAttendanceRecord 0 shortRow None noOptions) = None
  /\ warnings (parseSingleAttendanceRecord 0 shortRow None noOptions) = None
  /\ error (parseSingleAttendanceRecord 0 shortRow None noOptions)
       = Some "Insufficient fields (2/4 minimum required)".
Proof.
  apply (too_few_fields_is_a_failure 0 shortRow None noOptions).
  simpl. lia.
Defined.

Section Device.

Lemma orElse_empty p : orElse (Some p) "" = p.
Proof. destruct p; reflexivity. Qed.

Lemma orUndefined_kept o : kept o (orUndefined o).
Proof.
  intros s. destruct o as [[|c r]|]; cbn [orUndefined Js.truthy]; split.
  - discriminate.
  - intros [[= <-] H]. congruence.
  - intros [= <-]. split; [reflexivity|discriminate].
  - intros [[= <-] _]. reflexivity.
  - discriminate.
  - intros [[=] _].
Qed.

Lemma count_countReads o : countReads o (count o).
Proof.
  unfold countReads, count. destruct o as [[|c r]|]; cbn [mbind option_bind orElse Js.truthy].
  - reflexivity.
  - destruct (Js.parseInt (String c r)); cbn [default]; auto.
  - reflexivity.
Qed.

(** C9.  With a non-empty SN the device-info parser succeeds, whatever the
    INFO value.  Each of the seven counts is 0 when its segment (1-3, 5-8)
    is missing or has no integer, so a failed coercion never fails the
    parse, and it is the integer of its segment when that integer is one
    JavaScript holds exactly (at most 2^53 in magnitude).  With an INFO
    value of at least nine comma segments the model and the device IP are
    segments 0 and 4; with exactly nine segments the five extended fields are
    absent; with more than nine each extended field is the segment at its
    position 9-13, absent when that segment is missing or empty. *)
Theorem device_info_follows_segments (q : gmap string string) sn :
  q !! "SN" = Some sn -> sn <> "" ->
  exists d,
    parseDeviceInfo q = mkParseResult true (Some d) None None
    /\ serialNumber d = sn
    /\ countReads (infoSegments q !! 1%nat) (userCount d)
    /\ countReads (infoSegments q !! 2%nat) (fpCount d)
    /\ countReads (infoSegments q !! 3%nat) (recordCount d)
    /\ countReads (infoSegments q !! 5%nat) (adminCount d)
    /\ countReads (infoSegments q !! 6%nat) (passwordCount d)
    /\ countReads (infoSegments q !! 7%nat) (cardCount d)
    /\ countReads (infoSegments q !! 8%nat) (faceCount d)
    /\ forall info,
         q !! "INFO" = Some info ->
         (9 <= length (Js.split COMMA info))%nat ->
         infoSegments q = Js.split COMMA info
         /\ Js.split COMMA info !! 0%nat = Some (model d)
         /\ Js.split COMMA info !! 4%nat = Some (deviceIP d)
         /\ (length (Js.split COMMA info) = 9%nat ->
               firmware d = None /\ platform d = None /\ fingerVer d = None
               /\ faceVer d = None /\ pushVer d = None)
         /\ ((9 < length (Js.split COMMA info))%nat ->
               kept (Js.split COMMA info !! 9%nat) (firmware d)
               /\ kept (Js.split COMMA info !! 10%nat) (platform d)
               /\ kept (Js.split COMMA info !! 11%nat) (fingerVer d)
               /\ kept (Js.split COMMA info !! 12%nat) (faceVer d)
               /\ kept (Js.split COMMA info !! 13%nat) (pushVer d)).
Proof.
  intros Hsn Hne. apply truthy_true in Hne.
  unfold parseDeviceInfo, infoSegments. rewrite Hsn.
  cbn [falsy template default id]. rewrite Hne. cbn [negb].
  destruct (q !! "INFO") as [info|]; cbn [falsy];
    [destruct (Js.truthy info) eqn:Hi; cbn [negb]|].
  - eexists. split; [reflexivity|].
    cbn [serialNumber model userCount fpCount recordCount deviceIP adminCount
         passwordCount cardCount faceCount firmware platform fingerVer faceVer
         pushVer template default id].
    split; [reflexivity|].
    do 7 (split; [apply count_countReads|]).
    intros info' [= <-] Hlen. split; [reflexivity|].
    destruct (Js.split COMMA info)
      as [|p0 [|p1 [|p2 [|p3 [|p4 [|p5 [|p6 [|p7 [|p8 rest]]]]]]]]];
      cbn [length] in Hlen; try lia.
    change ((p0 :: p1 :: p2 :: p3 :: p4 :: p5 :: p6 :: p7 :: p8 :: rest) !! 0%nat)
      with (Some p0).
    change ((p0 :: p1 :: p2 :: p3 :: p4 :: p5 :: p6 :: p7 :: p8 :: rest) !! 4%nat)
      with (Some p4).
    rewrite !orElse_empty.
    split; [reflexivity|]. split; [reflexivity|]. split.
    + intros Hl. destruct rest; [|discriminate Hl]. repeat split.
    + intros Hl. destruct rest as [|p9 rest]; [cbn in Hl; lia|].
      change (9 <? length (p0 :: p1 :: p2 :: p3 :: p4 :: p5 :: p6 :: p7 :: p8
                           :: p9 :: rest))%nat with true.
      cbv iota. do 4 (split; [apply orUndefined_kept|]). apply orUndefined_kept.
  - eexists. split; [reflexivity|]. split; [reflexivity|].
    do 7 (split; [reflexivity|]).
    intros info' [= <-] Hlen. destruct info; [cbn in Hlen; lia|discriminate Hi].
  - eexists. split; [reflexivity|]. split; [reflexivity|].
    do 7 (split; [reflexivity|]).
    intros info' [=].
Qed.

End Device.

Lemma device_info_follows_segments_witness :
  exists d,
    parseDeviceInfo
      (<["SN" := "MED7241100320"]>
         (<["INFO" := "ZMM720-NF-Ver1.2.7,11,x,7094,192.168.1.14,10,12,12,10,111,,10"]> ∅))
      = mkParseResult true (Some d) None None
    /\ model d = "ZMM720-NF-Ver1.2.7"
    /\ userCount d = 11
    /\ fpCount d = 0
    /\ firmware d = Some "111"
    /\ platform d = None
    /\ fingerVer d = Some "10"
    /\ faceVer d = None.
Proof.
  destruct (device_info_follows_segments
              (<["SN" := "MED7241100320"]>
                 (<["INFO" := "ZMM720-NF-Ver1.2.7,11,x,7094,192.168.1.14,10,12,12,10,111,,10"]> ∅))
              "MED7241100320")
    as (d & Hr & _ & Hu & Hf & _ & _ & _ & _ & _ & Hinfo).
  - reflexivity.
  - discriminate.
  - destruct (Hinfo "ZMM720-NF-Ver1.2.7,11,x,7094,192.168.1.14,10,12,12,10,111,,10")
      as (_ & Hm & _ & _ & Hx).
    + reflexivity.
    + vm_compute. lia.
    + destruct Hx as (Hfw & Hpl & Hfv & Hface & _); [vm_compute; lia|].
      exists d. split; [exact Hr|].
      split; [injection Hm as <-; reflexivity|].
      split; [vm_compute in Hu; apply Hu; discriminate|].
      split; [vm_compute in Hf; exact Hf|].
      split; [apply Hfw; split; [reflexivity|discriminate]|].
      split.
      { destruct (platform d) as [s|] eqn:E; [|reflexivity].
        destruct (proj1 (Hpl s) eq_refl) as [[= <-] H]. congruence. }
      split; [apply Hfv; split; [reflexivity|discriminate]|].
      destruct (faceVer d) as [s|] eqn:E; [|reflexivity].
      destruct (proj1 (Hface s) eq_refl) as [[=] _].
Defined.

Section Validator.
Variables (tza : Z) (line : string) (ln : option nat) (options : ParserOptions).

(** A record comes from a line with four fields, a user id and a timestamp
    that [parseTimestamp] did not reject. *)
Lemma parseSingle_inv log :
  data (parseSingleAttendanceRecord tza line ln options) = Some log ->
  exists f0 f1 f2 f3 rest ts,
    Js.split TAB line = f0 :: f1 :: f2 :: f3 :: rest
    /\ Js.trim f0 <> ""
    /\ parseTimestamp tza (Js.trim f1) (default 4 (timezoneOffset options))
         = Some ts.
Proof.
  unfold parseSingleAttendanceRecord.
  destruct (Js.split TAB line) as [|f0 [|f1 [|f2 [|f3 rest]]]];
    try discriminate.
  change (length (f0 :: f1 :: f2 :: f3 :: rest) <? 4)%nat with false.
  cbv iota.
  change ((f0 :: f1 :: f2 :: f3 :: rest) !! 0%nat) with (Some f0).
  change ((f0 :: f1 :: f2 :: f3 :: rest) !! 1%nat) with (Some f1).
  cbn [fmap option_fmap option_map falsy template default id].
  destruct (Js.truthy (Js.trim f0)) eqn:E0; [|discriminate].
  destruct (Js.truthy (Js.trim f1)) eqn:E1; [|discriminate].
  cbn [negb].
  destruct (parseTimestamp tza (Js.trim f1) _) as [ts|] eqn:Ets; [|discriminate].
  intros _. exists f0, f1, f2, f3, rest, ts.
  split; [reflexivity|]. split; [apply truthy_true, E0|exact Ets].
Qed.

(** X23.  The part of C10 the code does: a record whose timestamp is a time value
    passes the validator. *)
Lemma parsed_record_validates log :
  data (parseSingleAttendanceRecord tza line ln options) = Some log ->
  JsDate.getTime (timestamp log) <> None ->
  validateAttendanceLog log = mkParseResult true (Some log) None None.
Proof.
  intros Hd Hvalid.
  destruct (parseSingle_inv log Hd) as (f0 & f1 & f2 & f3 & rest & ts & Hsplit & H0 & Hts).
  destruct (parseSingle_ok tza line ln options _ _ _ _ _ _ Hsplit H0 Hts)
    as (log' & ws & Hr & Hu & Ht & Hm & Hv & _ & _).
  rewrite Hr in Hd. injection Hd as ->.
  assert (Eu : negb (Js.truthy (userID log))
               || (String.length (Js.trim (userID log)) =? 0)%nat = false).
  { rewrite Hu, trim_idem. destruct (Js.trim f0); [contradiction|reflexivity]. }
  assert (Ev : Js.includesNum VerifyType.values (verifyType log) = true).
  { rewrite Hv. destruct (parseVerifyType _) as [n|] eqn:E; [|reflexivity].
    apply parseVerifyType_Some in E as [_ E]. apply includes_verifyTypes, E. }
  assert (Em : Js.includesNum InOutMode.values (inOutMode log) = true).
  { rewrite Hm. destruct (parseInOutMode _) as [n|] eqn:E; [|reflexivity].
    apply parseInOutMode_Some in E as [_ E]. apply includes_inOutModes, E. }
  unfold validateAttendanceLog. rewrite Eu, Ev, Em.
  destruct (JsDate.getTime (timestamp log)); [reflexivity|contradiction].
Qed.

End Validator.

(** C10.  The claim: every record of a successful
    [parseSingleAttendanceRecord] passes [validateAttendanceLog].  The parser
    tests its timestamp against [null] only, and [parseTimestamp] hands back
    an invalid [Date] when the shift by the device offset leaves the range of
    time values: the earliest local time a process at UTC can read, shifted
    by the default offset, gives a record that the validator rejects. *)
Theorem shifted_out_of_range_record_is_rejected :
  exists log,
    parseSingleAttendanceRecord 0
      (tabbed ["11"; "-271821-04-20T00:00:00"; "0"; "25"]) None noOptions
      = mkParseResult true (Some log) None None
    /\ timestamp log = JsDate.mkDate None
    /\ validateAttendanceLog log = failure "Valid timestamp is required".
Proof. eexists. split; [vm_compute; reflexivity|]. split; reflexivity. Qed.

(** ** Further properties: timestamps and numbers *)

Section MoreStrings.

Lemma replaceAll_truthy c d s : Js.truthy (Js.replaceAll c d s) = Js.truthy s.
Proof. destruct s; reflexivity. Qed.

Lemma slash_not_white x :
  Js.isWhiteSpace (if Ascii.eqb x "/" then "-"%char else x) = Js.isWhiteSpace x.
Proof. destruct (Ascii.eqb_spec x "/") as [->|]; reflexivity. Qed.

Lemma trimStart_slashes s :
  Js.trimStart (Js.replaceAll "/" "-" s) = Js.replaceAll "/" "-" (Js.trimStart s).
Proof.
  induction s as [|x r IH]; [reflexivity|].
  cbn [Js.replaceAll Js.trimStart]. rewrite slash_not_white.
  destruct (Js.isWhiteSpace x); [exact IH|reflexivity].
Qed.

Lemma trimEnd_slashes s :
  Js.trimEnd (Js.replaceAll "/" "-" s) = Js.replaceAll "/" "-" (Js.trimEnd s).
Proof.
  induction s as [|x r IH]; [reflexivity|].
  cbn [Js.replaceAll Js.trimEnd]. rewrite IH.
  destruct (Js.trimEnd r) as [|y t]; cbn [Js.replaceAll].
  - rewrite slash_not_white. destruct (Js.isWhiteSpace x); reflexivity.
  - reflexivity.
Qed.

Lemma replaceAll_slashes_idem s :
  Js.replaceAll "/" "-" (Js.replaceAll "/" "-" s) = Js.replaceAll "/" "-" s.
Proof.
  induction s as [|x r IH]; [reflexivity|].
  cbn [Js.replaceAll]. rewrite IH.
  destruct (Ascii.eqb_spec x "/") as [->|]; [reflexivity|].
  destruct (Ascii.eqb_spec x "/"); [contradiction|reflexivity].
Qed.

End MoreStrings.

Lemma parseTimestamp_local_agree_witness :
  parseTimestamp (-300) "2025/09/04 16:14:09" 4
    = parseTimestamp 330 "2025/09/04 16:14:09" 4.
Proof.
  apply (parseTimestamp_local_agree
           (-300) 330 "2025/09/04 16:14:09" 4 1757002449000).
  - reflexivity.
  - unfold representable, JsDate.msPerMinute, JsDate.maxTime. lia.
  - unfold representable, JsDate.msPerMinute, JsDate.maxTime. lia.
Defined.

Lemma TimeClip_some x t : JsDate.TimeClip x = Some t -> x = t.
Proof. unfold JsDate.TimeClip. destruct (Z.abs x <=? JsDate.maxTime); congruence. Qed.

(** X2.  The device offset is a shift in hours, for every string and every
    process zone: when [parseTimestamp] returns the instant [t] for the
    offset [off], it returns [t] minus [k] hours for the offset [off + k]
    (as long as that is a time value).  A larger offset gives an earlier
    instant. *)
Theorem device_offset_shifts_the_instant tza s off k t :
  JsDate.getTime <$> parseTimestamp tza s off = Some (Some t) ->
  Z.abs (t - k * JsDate.msPerHour) <= JsDate.maxTime ->
  JsDate.getTime <$> parseTimestamp tza s (off + k)
    = Some (Some (t - k * 3600000)).
Proof.
  unfold parseTimestamp. destruct (negb (Js.truthy s)); [discriminate|].
  cbv zeta. unfold JsDate.getTimezoneOffset.
  intros H Hin.
  destruct (JsDate.getTime (JsDate.ofString tza (Js.replaceAll "/" "-" (Js.trim s))))
    as [time|].
  - cbn [fmap option_fmap option_map JsDate.ofNumber JsDate.getTime] in *.
    injection H as H. apply TimeClip_some in H.
    replace (time + (- (off + k) * 60 - - tza) * 60 * 1000)
      with (t - k * JsDate.msPerHour)
      by (unfold JsDate.msPerHour; lia).
    rewrite (TimeClip_in _ Hin). reflexivity.
  - destruct (JsDate.getTime (JsDate.ofString tza
               (Js.replaceFirst " " "T" (Js.replaceAll "/" "-" (Js.trim s)))))
      as [time|]; [|discriminate].
    cbn [fmap option_fmap option_map JsDate.ofNumber JsDate.getTime] in *.
    injection H as H. apply TimeClip_some in H.
    replace (time + (- (off + k) * 60 - - tza) * 60 * 1000)
      with (t - k * JsDate.msPerHour)
      by (unfold JsDate.msPerHour; lia).
    rewrite (TimeClip_in _ Hin). reflexivity.
Qed.

Lemma device_offset_shifts_the_instant_witness :
  JsDate.getTime <$> parseTimestamp 60 "2025-09-04T16:14:09" (4 + -9)
    = Some (Some (1756988049000 - -9 * 3600000)).
Proof.
  apply (device_offset_shifts_the_instant 60 "2025-09-04T16:14:09" 4 (-9)
           1756988049000).
  - reflexivity.
  - unfold JsDate.msPerHour, JsDate.maxTime. lia.
Defined.

(** X3.  Slashes and dashes are interchangeable in a timestamp: writing
    every [/] of the string as [-] does not change what [parseTimestamp]
    returns. *)
Theorem slashes_read_as_dashes tza s off :
  parseTimestamp tza (Js.replaceAll "/" "-" s) off = parseTimestamp tza s off.
Proof.
  unfold parseTimestamp. rewrite replaceAll_truthy.
  unfold Js.trim. rewrite trimStart_slashes, trimEnd_slashes.
  rewrite replaceAll_slashes_idem. reflexivity.
Qed.

(** ** Further properties: numerals and coercers *)

Section Numerals.

Lemma digit_head c d r :
  Js.digitValue c = Some d -> Js.parseInt (String c r) = Js.digits (String c r) 0 false.
Proof.
  destruct c as [[] [] [] [] [] [] [] []]; try discriminate; reflexivity.
Qed.

Lemma digits_rest rest acc :
  noLeadingDigit rest -> Js.digits rest acc true = Some acc.
Proof.
  destruct rest as [|c r]; [reflexivity|]. cbn [noLeadingDigit Js.digits].
  intros ->. reflexivity.
Qed.

Lemma append_cons c s r : String c s +:+ r = String c (s +:+ r).
Proof. reflexivity. Qed.

(** Reading the digits of a numeral continues the accumulator the way
    [Nat.of_uint_acc] does. *)
Lemma digits_uint d : forall rest a seen,
  Js.digits (NilEmpty.string_of_uint d +:+ rest) (Z.of_nat a) seen
  = match d with
    | Decimal.Nil => Js.digits rest (Z.of_nat a) seen
    | _ => Js.digits rest (Z.of_nat (Nat.of_uint_acc d a)) true
    end.
Proof.
  induction d as [|d IH|d IH|d IH|d IH|d IH|d IH|d IH|d IH|d IH|d IH];
    intros rest a seen; [reflexivity|..];
    cbn [NilEmpty.string_of_uint Nat.of_uint_acc];
    rewrite append_cons; cbn [Js.digits];
    match goal with
    | |- context [Js.digitValue ?c] =>
        let v := eval vm_compute in (Js.digitValue c) in
        change (Js.digitValue c) with v
    end; cbv iota beta;
    match goal with
    | |- context [Nat.of_uint_acc d ?n] =>
        match goal with
        | |- context [Js.digits _ ?z true] =>
            replace z with (Z.of_nat n)
              by (rewrite ?Nat.tail_mul_spec; lia)
        end
    end;
    rewrite IH; destruct d; reflexivity.
Qed.

Lemma ofNat_digits n rest :
  Js.parseInt (Js.ofNat n +:+ rest)
  = Js.digits rest (Z.of_nat n) true.
Proof.
  unfold Js.ofNat.
  rewrite <- (DecimalNat.Unsigned.of_to n) at 2.
  destruct (Nat.to_uint n) as [|d|d|d|d|d|d|d|d|d|d];
    [reflexivity|..];
    cbn [NilZero.string_of_uint NilEmpty.string_of_uint];
    rewrite append_cons; (erewrite digit_head by reflexivity);
    rewrite <- append_cons.
  - exact (digits_uint (Decimal.D0 d) rest 0 false).
  - exact (digits_uint (Decimal.D1 d) rest 0 false).
  - exact (digits_uint (Decimal.D2 d) rest 0 false).
  - exact (digits_uint (Decimal.D3 d) rest 0 false).
  - exact (digits_uint (Decimal.D4 d) rest 0 false).
  - exact (digits_uint (Decimal.D5 d) rest 0 false).
  - exact (digits_uint (Decimal.D6 d) rest 0 false).
  - exact (digits_uint (Decimal.D7 d) rest 0 false).
  - exact (digits_uint (Decimal.D8 d) rest 0 false).
  - exact (digits_uint (Decimal.D9 d) rest 0 false).
Qed.

End Numerals.

(** X4.  [parseNumber] reads back the decimal numeral of every natural
    number (up to 2^53, where JavaScript integers are exact), whatever
    follows the numeral as long as it is no further digit: the device id
    [12] is 12, and so is [12abc]. *)
Theorem parseNumber_reads_decimal_numerals n rest :
  Z.of_nat n <= 2 ^ 53 ->
  noLeadingDigit rest ->
  parseNumber (Js.ofNat n +:+ rest) = Some (Z.of_nat n).
Proof.
  intros _ H. unfold parseNumber. rewrite ofNat_digits. apply digits_rest, H.
Qed.

Lemma parseNumber_reads_decimal_numerals_witness :
  parseNumber (Js.ofNat 12 +:+ "abc") = Some 12.
Proof.
  apply (parseNumber_reads_decimal_numerals 12 "abc"); [vm_compute; discriminate|].
  reflexivity.
Defined.

(** X5.  The two enum coercers return members of their enum only, and only
    for a field that is present: what they return is the integer at the
    head of the field. *)
Theorem coercers_return_members_only :
  (forall value n,
     parseInOutMode value = Some n ->
     n ∈ inOutModes /\ exists field, value = Some field /\ Js.parseInt field = Some n)
  /\ (forall value n,
        parseVerifyType value = Some n ->
        n ∈ verifyTypes /\ exists field, value = Some field /\ Js.parseInt field = Some n).
Proof.
  split; intros [field|] n H; try discriminate.
  - apply parseInOutMode_Some in H as [H1 H2]. eauto.
  - apply parseVerifyType_Some in H as [H1 H2]. eauto.
Qed.

Lemma coercers_return_members_only_witness :
  (25 ∈ verifyTypes) /\ (5 ∈ inOutModes).
Proof.
  split.
  - apply (proj2 coercers_return_members_only (Some " 25 (palm)") 25). reflexivity.
  - apply (proj1 coercers_return_members_only (Some "5") 5). reflexivity.
Defined.

(** ** Further properties: one line *)

Section MoreSingle.
Variables (tza : Z) (line : string) (ln : option nat) (options : ParserOptions).

Lemma nonEmptyList_not_nil {A} (l : list A) : nonEmptyList l <> Some [].
Proof. destruct l; discriminate. Qed.

(** The optional fields of a record. *)
Lemma parseSingle_optional log :
  data (parseSingleAttendanceRecord tza line ln options) = Some log ->
  deviceID log
    = (if falsy (Js.split TAB line !! 5%nat) then None
       else parseNumber (Js.trim (template (Js.split TAB line !! 5%nat))))
  /\ reserved log
     = nonEmptyList
         (List.filter (fun p => (0 <? String.length p)%nat)
            (map Js.trim (drop 6 (Js.split TAB line))))
  /\ raw log = (if includeRawData options then Some line else None).
Proof.
  unfold parseSingleAttendanceRecord.
  destruct (length (Js.split TAB line) <? 4)%nat; [discriminate|].
  destruct (falsy (Js.trim <$> Js.split TAB line !! 0%nat)); [discriminate|].
  destruct (falsy (Js.trim <$> Js.split TAB line !! 1%nat)); [discriminate|].
  destruct (parseTimestamp _ _ _); [|discriminate].
  cbn [data]. intros [= <-]. cbn [deviceID reserved raw]. auto.
Qed.

(** X6.  A line with at least four fields fails for exactly three reasons:
    it fails if and only if its user id is blank, its timestamp is blank or
    [parseTimestamp] rejects its timestamp.  The reasons are tested in this
    order, each with its message: "Missing User ID", "Missing timestamp",
    "Invalid timestamp format:" and the trimmed field. *)
Theorem record_failures_in_order f0 f1 f2 f3 rest :
  Js.split TAB line = f0 :: f1 :: f2 :: f3 :: rest ->
  (Js.trim f0 = "" ->
     parseSingleAttendanceRecord tza line ln options = failure "Missing User ID")
  /\ (Js.trim f0 <> "" -> Js.trim f1 = "" ->
        parseSingleAttendanceRecord tza line ln options
          = failure "Missing timestamp")
  /\ (Js.trim f0 <> "" -> Js.trim f1 <> "" ->
        parseTimestamp tza (Js.trim f1) (default 4 (timezoneOffset options)) = None ->
        parseSingleAttendanceRecord tza line ln options
          = failure ("Invalid timestamp format: " +:+ Js.trim f1))
  /\ (success (parseSingleAttendanceRecord tza line ln options) = false
      <-> Js.trim f0 = "" \/ Js.trim f1 = ""
          \/ parseTimestamp tza (Js.trim f1) (default 4 (timezoneOffset options))
             = None).
Proof.
  intros Hsplit. unfold parseSingleAttendanceRecord. rewrite Hsplit.
  change (length (f0 :: f1 :: f2 :: f3 :: rest) <? 4)%nat with false.
  cbv iota.
  change ((f0 :: f1 :: f2 :: f3 :: rest) !! 0%nat) with (Some f0).
  change ((f0 :: f1 :: f2 :: f3 :: rest) !! 1%nat) with (Some f1).
  cbn [fmap option_fmap option_map falsy template default id].
  split; [|split; [|split]].
  - intros ->. reflexivity.
  - intros H0 ->. apply truthy_true in H0. rewrite H0. reflexivity.
  - intros H0 H1 Hts. apply truthy_true in H0, H1.
    rewrite H0, H1. cbn [negb]. rewrite Hts. reflexivity.
  - destruct (Js.trim f0) as [|c0 r0]; cbn [Js.truthy negb success failure];
      [split; auto|].
    destruct (Js.trim f1) as [|c1 r1]; cbn [Js.truthy negb success failure];
      [split; auto|].
    destruct (parseTimestamp tza (String c1 r1) _);
      cbn [success failure]; [|split; auto].
    split; [discriminate|]. intros [H|[H|H]]; discriminate H.
Qed.

(** X7.  Every result of [parseSingleAttendanceRecord] is a well-formed
    envelope: a record exactly on success, an error exactly on failure,
    warnings on success only, and never an empty list of warnings. *)
Theorem record_result_is_well_formed :
  wellFormedResult (parseSingleAttendanceRecord tza line ln options).
Proof.
  unfold parseSingleAttendanceRecord, wellFormedResult.
  destruct (length (Js.split TAB line) <? 4)%nat;
    [cbn; intuition congruence|].
  destruct (falsy (Js.trim <$> Js.split TAB line !! 0%nat));
    [cbn; intuition congruence|].
  destruct (falsy (Js.trim <$> Js.split TAB line !! 1%nat));
    [cbn; intuition congruence|].
  destruct (parseTimestamp _ _ _); [|cbn; intuition congruence].
  cbn [success data error warnings].
  split; [intuition congruence|]. split; [intuition congruence|].
  split; [reflexivity|]. apply nonEmptyList_not_nil.
Qed.

(** X8.  Whatever the line, a record that is returned has a user id that is
    trimmed and not empty, an in/out mode that is a member of its enum and a
    verify type that is a member of its enum. *)
Theorem record_fields_are_well_defined log :
  data (parseSingleAttendanceRecord tza line ln options) = Some log ->
  userID log <> ""
  /\ Js.trim (userID log) = userID log
  /\ inOutMode log ∈ inOutModes
  /\ verifyType log ∈ verifyTypes.
Proof.
  intros Hd.
  destruct (parseSingle_inv tza line ln options log Hd)
    as (f0 & f1 & f2 & f3 & rest & ts & Hsplit & H0 & Hts).
  destruct (parseSingle_ok tza line ln options _ _ _ _ _ _ Hsplit H0 Hts)
    as (log' & ws & Hr & Hu & _ & Hm & Hv & _ & _).
  rewrite Hr in Hd. injection Hd as ->.
  rewrite Hu, Hm, Hv, trim_idem.
  split; [exact H0|]. split; [reflexivity|]. split.
  - destruct (parseInOutMode _) as [n|] eqn:E.
    + apply parseInOutMode_Some in E as [_ E]. exact E.
    + apply includes_inOutModes. reflexivity.
  - destruct (parseVerifyType _) as [n|] eqn:E.
    + apply parseVerifyType_Some in E as [_ E]. exact E.
    + apply includes_verifyTypes. reflexivity.
Qed.

(** X9.  The optional fields of a record: the device id is absent when
    field 5 is missing or, trimmed, has no integer at its head, and it is
    that integer when JavaScript holds it exactly (at most 2^53 in
    magnitude); the reserved list is exactly the list of the fields from
    index 6 on, trimmed, in their order, without the blank ones, and it is
    absent rather than empty; the raw line is there exactly when
    [includeRawData] asks for it, and then it is the line as given. *)
Theorem record_optional_fields log :
  data (parseSingleAttendanceRecord tza line ln options) = Some log ->
  numberReads (Js.split TAB line !! 5%nat) (deviceID log)
  /\ reserved log
     = nonEmptyList
         (List.filter Js.truthy (Js.trim <$> drop 6 (Js.split TAB line)))
  /\ raw log = (if includeRawData options then Some line else None).
Proof.
  intros Hd. destruct (parseSingle_optional log Hd) as (Hdev & Hres & Hraw).
  split; [|split; [|exact Hraw]].
  - rewrite Hdev. unfold numberReads, parseNumber.
    destruct (Js.split TAB line !! 5%nat) as [[|c r]|];
      cbn [falsy Js.truthy negb template default id mbind option_bind].
    + reflexivity.
    + destruct (Js.parseInt (Js.trim (String c r))); auto.
    + reflexivity.
  - rewrite Hres. f_equal. apply filter_ext. intros [|c r]; reflexivity.
Qed.

End MoreSingle.

Lemma record_failures_in_order_witness :
  parseSingleAttendanceRecord 0 (tabbed [" "; ""; "0"; "25"]) None noOptions
    = failure "Missing User ID"
  /\ parseSingleAttendanceRecord 0 (tabbed ["11"; " "; "0"; "25"]) None noOptions
     = failure "Missing timestamp"
  /\ parseSingleAttendanceRecord 0 (tabbed ["11"; " yesterday "; "0"; "25"]) None
       noOptions
     = failure "Invalid timestamp format: yesterday"
  /\ (Js.trim "11" = "" \/ Js.trim "2025-08-27T10:57:49" = ""
      \/ parseTimestamp 0 (Js.trim "2025-08-27T10:57:49")
           (default 4 (timezoneOffset noOptions)) = None
      -> False).
Proof.
  split; [|split; [|split]].
  - apply (proj1 (record_failures_in_order 0
                    (tabbed [" "; ""; "0"; "25"]) None noOptions
                    " " "" "0" "25" [] eq_refl)).
    reflexivity.
  - apply (proj1 (proj2 (record_failures_in_order 0
                    (tabbed ["11"; " "; "0"; "25"]) None noOptions
                    "11" " " "0" "25" [] eq_refl)));
      [discriminate | reflexivity].
  - apply (proj1 (proj2 (proj2 (record_failures_in_order 0
                    (tabbed ["11"; " yesterday "; "0"; "25"]) None noOptions
                    "11" " yesterday " "0" "25" [] eq_refl))));
      [discriminate | discriminate | reflexivity].
  - intros H.
    apply (proj2 (proj2 (proj2 (record_failures_in_order 0
                    (tabbed ["11"; "2025-08-27T10:57:49"; "0"; "25"]) None noOptions
                    "11" "2025-08-27T10:57:49" "0" "25" [] eq_refl)))) in H.
    discriminate H.
Defined.

Lemma record_fields_are_well_defined_witness :
  userID sampleLog <> ""
  /\ Js.trim (userID sampleLog) = userID sampleLog
  /\ inOutMode sampleLog ∈ inOutModes
  /\ verifyType sampleLog ∈ verifyTypes.
Proof.
  apply (record_fields_are_well_defined 0 sampleRow None noOptions sampleLog).
  reflexivity.
Defined.

Lemma record_optional_fields_witness :
  numberReads (Js.split TAB sampleRow !! 5%nat) (deviceID sampleLog)
  /\ reserved sampleLog
     = nonEmptyList
         (List.filter Js.truthy (Js.trim <$> drop 6 (Js.split TAB sampleRow)))
  /\ raw sampleLog = (if includeRawData noOptions then Some sampleRow else None).
Proof.
  apply (record_optional_fields 0 sampleRow None noOptions sampleLog).
  reflexivity.
Defined.

(** ** Further properties: the batch *)

Lemma work_code_defaults_witness :
  exists log ws,
    parseSingleAttendanceRecord 0
      (tabbed ["11"; "2025-08-27 10:57:49"; "0"; "25"; "n/a"]) None noOptions
      = mkParseResult true (Some log) None (nonEmptyList ws)
    /\ workCode log = WorkCode.NORMAL
    /\ forall w, w ∈ ws ->
         w = "Unknown in/out mode: " +:+ Js.trim "0" +:+ ", using CHECK_IN"
         \/ w = "Unknown verify type: " +:+ Js.trim "25" +:+ ", using UNKNOWN".
Proof.
  apply (work_code_defaults 0
           (tabbed ["11"; "2025-08-27 10:57:49"; "0"; "25"; "n/a"]) None noOptions
           "11" "2025-08-27 10:57:49" "0" "25" ["n/a"]
           (JsDate.mkDate (Some 1756277869000))).
  - reflexivity.
  - discriminate.
  - reflexivity.
  - right. exists "n/a". split; reflexivity.
Defined.

Lemma lenient_one_bad_line_witness :
  exists records ws,
    parseAttendanceLog 0 (Js.VStr bodyWithBlankLine) noOptions
      = mkParseResult true (Some records) None (Some ws)
    /\ length records = (length [sampleRow] + length (@nil string))%nat
    /\ ("Line " +:+ Js.ofNat (length [sampleRow] + 1) +:+ ": "
        +:+ "Insufficient fields (2/4 minimum required)") ∈ ws.
Proof.
  apply (lenient_one_bad_line 0 noOptions bodyWithBlankLine
           [sampleRow] shortRow []
           "Insufficient fields (2/4 minimum required)").
  - reflexivity.
  - intros H. vm_compute in H. discriminate H.
  - reflexivity.
  - intros raw H. apply list_elem_of_singleton in H. rewrite H. reflexivity.
  - reflexivity.
Defined.

Lemma strict_first_bad_line_witness :
  parseAttendanceLog 0 (Js.VStr bodyWithBlankLine)
    (mkParserOptions true false None None)
  = failure ("Line " +:+ Js.ofNat (length [sampleRow] + 1) +:+ ": "
             +:+ "Insufficient fields (2/4 minimum required)").
Proof.
  apply (strict_first_bad_line 0 (mkParserOptions true false None None)
           bodyWithBlankLine [sampleRow] shortRow []
           "Insufficient fields (2/4 minimum required)").
  - reflexivity.
  - intros H. vm_compute in H. discriminate H.
  - reflexivity.
  - intros raw H. apply list_elem_of_singleton in H. rewrite H. reflexivity.
  - reflexivity.
Defined.

Section MoreBatch.
Variables (tza : Z) (options : ParserOptions).

Lemma nonBlankLines_Forall body :
  Forall (fun raw => Js.truthy (Js.trim raw) = true) (nonBlankLines body).
Proof.
  apply Forall_forall. intros raw. apply nonBlankLines_truthy.
Qed.

Lemma parseSingle_lenient line ln :
  parseSingleAttendanceRecord tza line ln (lenient options)
  = parseSingleAttendanceRecord tza line ln options.
Proof. reflexivity. Qed.

(** Without strict mode the loop is a map over the lines. *)
Lemma parseLines_lenient_spec lines : forall i att w,
  strictMode options = false ->
  Forall (fun raw => Js.truthy (Js.trim raw) = true) lines ->
  parseLines tza options lines i att w
  = mkParseResult true
      (Some (att ++ flat_map (lineRecords tza options) lines)) None
      (nonEmptyList
         (w ++ concat (imap (fun k => lineWarnings tza options (i + k)) lines))).
Proof.
  induction lines as [|raw rest IH]; intros i att w Hs Hall.
  - cbn. rewrite !app_nil_r. reflexivity.
  - apply Forall_cons in Hall as [Ht Hall].
    cbn [flat_map imap concat]. unfold lineRecords at 1, lineWarnings at 1.
    destruct (parseSingle_cases tza (Js.trim raw) None options)
      as [(e & Hne & He) | (log & ws & Hr)].
    + rewrite (parseLines_step_fail tza options raw rest i att w e Ht Hne He), Hs.
      rewrite He. cbn [data warnings error failure default app].
      rewrite (IH (S i) att _ Hs Hall), Nat.add_0_r.
      rewrite (imap_ext (fun k => lineWarnings tza options (S i + k))
                 ((fun k => lineWarnings tza options (i + k)) ∘ S) rest)
        by (intros k x _; cbn; rewrite Nat.add_succ_r; reflexivity).
      rewrite <- app_assoc. reflexivity.
    + rewrite (parseLines_step_ok tza options raw rest i att w log ws Ht Hr).
      rewrite Hr. cbn [data warnings error app].
      rewrite (IH (S i) _ _ Hs Hall).
      rewrite (imap_ext (fun k => lineWarnings tza options (S i + k))
                 ((fun k => lineWarnings tza options (i + k)) ∘ S) rest)
        by (intros k x _; cbn; rewrite Nat.add_succ_r; reflexivity).
      rewrite app_nil_r, <- !app_assoc. reflexivity.
Qed.

(** X13.  Without strict mode the batch result is the lines' results put
    together: the records of the non-blank lines that parse, in their order,
    and the warnings of the lines in their order, where a line that parses
    gives the warnings of its record as they are and a line that fails gives
    its error under its number among the non-blank lines. *)
Theorem lenient_batch_collects_the_lines body :
  strictMode options = false ->
  body <> "" ->
  parseAttendanceLog tza (Js.VStr body) options
  = mkParseResult true
      (Some (flat_map (lineRecords tza options) (nonBlankLines body))) None
      (nonEmptyList
         (concat (imap (lineWarnings tza options) (nonBlankLines body)))).
Proof.
  intros Hs Hbody.
  rewrite (parseAttendanceLog_lines tza options body Hbody).
  apply (parseLines_lenient_spec (nonBlankLines body) 0 [] [] Hs),
    nonBlankLines_Forall.
Qed.

(** In strict mode the loop succeeds exactly when every line parses, and
    then it does what the loop without strict mode does. *)
Lemma parseLines_strict_spec lines : forall i att w,
  strictMode options = true ->
  Forall (fun raw => Js.truthy (Js.trim raw) = true) lines ->
  (success (parseLines tza options lines i att w) = true
   <-> allParse tza options lines)
  /\ (success (parseLines tza options lines i att w) = true ->
      parseLines tza options lines i att w
      = parseLines tza (lenient options) lines i att w).
Proof.
  induction lines as [|raw rest IH]; intros i att w Hs Hall.
  - split; [|reflexivity]. split; [|reflexivity].
    intros _ raw Hraw. inversion Hraw.
  - apply Forall_cons in Hall as [Ht Hall].
    destruct (parseSingle_cases tza (Js.trim raw) None options)
      as [(e & Hne & He) | (log & ws & Hr)].
    + rewrite (parseLines_step_fail tza options raw rest i att w e Ht Hne He), Hs.
      cbn [success failure]. split; [|discriminate]. split; [discriminate|].
      intros H. specialize (H raw (list_elem_of_here _ _)).
      rewrite He in H. discriminate H.
    + rewrite (parseLines_step_ok tza options raw rest i att w log ws Ht Hr).
      rewrite (parseLines_step_ok tza (lenient options) raw rest i att w log ws Ht Hr).
      destruct (IH (S i) (att ++ [log]) (w ++ default [] ws) Hs Hall) as [IH1 IH2].
      split; [|exact IH2]. rewrite IH1. split.
      * intros H x Hx. apply elem_of_cons in Hx as [-> | Hx]; [|auto].
        rewrite Hr. reflexivity.
      * intros H x Hx. apply H. apply list_elem_of_further, Hx.
Qed.

(** X14.  In strict mode a batch succeeds exactly when every non-blank line
    parses, and then strict mode makes no difference: the result is the one
    the same options give without strict mode. *)
Theorem strict_batch_succeeds_when_all_lines_parse body :
  strictMode options = true ->
  body <> "" ->
  (success (parseAttendanceLog tza (Js.VStr body) options) = true
   <-> allParse tza options (nonBlankLines body))
  /\ (success (parseAttendanceLog tza (Js.VStr body) options) = true ->
      parseAttendanceLog tza (Js.VStr body) options
      = parseAttendanceLog tza (Js.VStr body) (lenient options)).
Proof.
  intros Hs Hbody.
  rewrite (parseAttendanceLog_lines tza options body Hbody).
  rewrite (parseAttendanceLog_lines tza (lenient options) body Hbody).
  apply (parseLines_strict_spec (nonBlankLines body) 0 [] [] Hs),
    nonBlankLines_Forall.
Qed.

Lemma parseLines_well_formed lines : forall i att w,
  wellFormedResult (parseLines tza options lines i att w).
Proof.
  induction lines as [|raw rest IH]; intros i att w.
  - unfold wellFormedResult. cbn [parseLines success data error warnings].
    split; [intuition congruence|]. split; [intuition congruence|].
    split; [reflexivity|]. apply nonEmptyList_not_nil.
  - cbn [parseLines].
    destruct (negb (Js.truthy raw)); [apply IH|].
    destruct (negb (Js.truthy (Js.trim raw))); [apply IH|].
    destruct (falsy _); [apply IH|].
    destruct (strictMode options); [|apply IH].
    unfold wellFormedResult. cbn. intuition congruence.
Qed.

(** X15.  Every result of [parseAttendanceLog], for every input and in both
    modes, is a well-formed envelope: the record list exactly on success, an
    error exactly on failure, warnings on success only and never an empty
    list of them. *)
Theorem batch_result_is_well_formed data :
  wellFormedResult (parseAttendanceLog tza data options).
Proof.
  assert (Hf : wellFormedResult
                 (failure (T := list AttendanceLog)
                    "Invalid or empty attendance data"))
    by (unfold wellFormedResult; cbn; intuition congruence).
  destruct data as [| |b|n|s|]; try exact Hf.
  unfold parseAttendanceLog. destruct (negb (Js.truthy s)); [exact Hf|].
  apply parseLines_well_formed.
Qed.

End MoreBatch.

Lemma lenient_batch_collects_the_lines_witness :
  parseAttendanceLog 0 (Js.VStr bodyWithBlankLine) noOptions
  = mkParseResult true
      (Some (flat_map (lineRecords 0 noOptions) (nonBlankLines bodyWithBlankLine)))
      None
      (nonEmptyList
         (concat (imap (lineWarnings 0 noOptions) (nonBlankLines bodyWithBlankLine)))).
Proof.
  apply (lenient_batch_collects_the_lines 0 noOptions bodyWithBlankLine).
  - reflexivity.
  - intros H. vm_compute in H. discriminate H.
Defined.

Lemma strict_batch_succeeds_when_all_lines_parse_witness :
  parseAttendanceLog 0 (Js.VStr sampleRow) (mkParserOptions true true None None)
  = parseAttendanceLog 0 (Js.VStr sampleRow)
      (lenient (mkParserOptions true true None None)).
Proof.
  apply (proj2 (strict_batch_succeeds_when_all_lines_parse 0
                  (mkParserOptions true true None None) sampleRow
                  eq_refl ltac:(intros H; vm_compute in H; discriminate H))).
  reflexivity.
Defined.

(** ** Further properties: device info *)

Section MoreDevice.
Variable q : gmap string string.

(** X16.  [parseDeviceInfo] succeeds exactly when the map has a non-empty
    SN: no INFO value makes it fail.  Its only failure is the one about the
    missing serial number, and on success the serial number is the SN value
    as given. *)
Theorem device_info_needs_only_a_serial_number :
  (success (parseDeviceInfo q) = true
   <-> exists sn, q !! "SN" = Some sn /\ sn <> "")
  /\ (success (parseDeviceInfo q) = false ->
      parseDeviceInfo q = failure "Missing device serial number (SN parameter)")
  /\ (forall d, data (parseDeviceInfo q) = Some d ->
        q !! "SN" = Some (serialNumber d)).
Proof.
  unfold parseDeviceInfo.
  destruct (q !! "SN") as [[|c sn]|]; cbn [falsy Js.truthy negb].
  - split; [|split]; [|reflexivity|discriminate].
    split; [discriminate|]. intros (sn & [= <-] & H). congruence.
  - split; [|split]; [|discriminate|].
    + split; [|reflexivity]. intros _. exists (String c sn).
      split; [reflexivity|discriminate].
    + cbn [data]. intros d [= <-].
      destruct (falsy (q !! "INFO")); reflexivity.
  - split; [|split]; [|reflexivity|discriminate].
    split; [discriminate|]. intros (sn & [=] & _).
Qed.

Lemma orElse_default o : orElse o "" = default "" o.
Proof. destruct o as [p|]; [apply orElse_empty|reflexivity]. Qed.

(** X17.  With a non-empty SN, whatever the INFO value (absent, empty, or
    with any number of segments): the model and the device IP are their
    segment, or the empty string when it is missing; a count is 0 when its
    segment is missing or has no integer, and the integer of its segment
    when JavaScript holds it exactly (at most 2^53 in magnitude); with nine
    segments or fewer the extended fields are absent. *)
Theorem device_info_defaults_for_missing_segments sn :
  q !! "SN" = Some sn -> sn <> "" ->
  exists d,
    parseDeviceInfo q = mkParseResult true (Some d) None None
    /\ serialNumber d = sn
    /\ model d = default "" (infoSegments q !! 0%nat)
    /\ deviceIP d = default "" (infoSegments q !! 4%nat)
    /\ countReads (infoSegments q !! 1%nat) (userCount d)
    /\ countReads (infoSegments q !! 2%nat) (fpCount d)
    /\ countReads (infoSegments q !! 3%nat) (recordCount d)
    /\ countReads (infoSegments q !! 5%nat) (adminCount d)
    /\ countReads (infoSegments q !! 6%nat) (passwordCount d)
    /\ countReads (infoSegments q !! 7%nat) (cardCount d)
    /\ countReads (infoSegments q !! 8%nat) (faceCount d)
    /\ ((length (infoSegments q) <= 9)%nat ->
          firmware d = None /\ platform d = None /\ fingerVer d = None
          /\ faceVer d = None /\ pushVer d = None).
Proof.
  intros Hsn Hne. apply truthy_true in Hne.
  unfold parseDeviceInfo, infoSegments. rewrite Hsn.
  cbn [falsy template default id]. rewrite Hne. cbn [negb].
  destruct (q !! "INFO") as [info|]; cbn [falsy];
    [destruct (Js.truthy info); cbn [negb]|].
  - eexists. split; [reflexivity|].
    cbn [serialNumber model userCount fpCount recordCount deviceIP adminCount
         passwordCount cardCount faceCount firmware platform fingerVer faceVer
         pushVer template default id].
    rewrite !orElse_default.
    do 3 (split; [reflexivity|]).
    do 7 (split; [apply count_countReads|]).
    intros Hl. apply Nat.ltb_ge in Hl. rewrite Hl. repeat split.
  - eexists. split; [reflexivity|].
    do 3 (split; [reflexivity|]). do 7 (split; [reflexivity|]).
    intros _. repeat split.
  - eexists. split; [reflexivity|].
    do 3 (split; [reflexivity|]). do 7 (split; [reflexivity|]).
    intros _. repeat split.
Qed.

End MoreDevice.

Lemma device_info_needs_only_a_serial_number_witness :
  exists sn, (<["INFO" := ",,,"]> (<["SN" := "A1"]> ∅) : gmap string string)
               !! "SN" = Some sn /\ sn <> "".
Proof.
  apply (proj1 (device_info_needs_only_a_serial_number
                  (<["INFO" := ",,,"]> (<["SN" := "A1"]> ∅)))).
  reflexivity.
Defined.

Lemma device_info_defaults_for_missing_segments_witness :
  exists d,
    parseDeviceInfo (<["INFO" := "ZMM,7"]> (<["SN" := "A1"]> ∅))
      = mkParseResult true (Some d) None None
    /\ model d = "ZMM" /\ userCount d = 7 /\ fpCount d = 0 /\ deviceIP d = ""
    /\ firmware d = None.
Proof.
  destruct (device_info_defaults_for_missing_segments
              (<["INFO" := "ZMM,7"]> (<["SN" := "A1"]> ∅)) "A1")
    as (d & Hr & _ & Hm & Hip & Hu & Hf & _ & _ & _ & _ & _ & Hx).
  - reflexivity.
  - discriminate.
  - exists d. split; [exact Hr|]. split; [exact Hm|].
    split; [vm_compute in Hu; apply Hu; discriminate|].
    split; [vm_compute in Hf; exact Hf|]. split; [exact Hip|].
    apply Hx. vm_compute. lia.
Defined.

(** ** Further properties: the validator and the helpers *)

Lemma parsed_record_validates_witness :
  validateAttendanceLog sampleLog = mkParseResult true (Some sampleLog) None None.
Proof.
  apply (parsed_record_validates 0 sampleRow None noOptions sampleLog).
  - reflexivity.
  - discriminate.
Defined.

Section MoreValidator.
Variable log : AttendanceLog.

(** X18.  [validateAttendanceLog] succeeds exactly on the records that have
    a user id with something else than white space in it, a timestamp that
    is a time value, a verify type and an in/out mode that are members of
    their enums (the work code is not looked at).  On success it hands the
    record back as it is, without warnings; otherwise it gives an error and
    no record. *)
Theorem validator_accepts_exactly_the_valid_records :
  (success (validateAttendanceLog log) = true <-> validLog log)
  /\ (success (validateAttendanceLog log) = true ->
      validateAttendanceLog log = mkParseResult true (Some log) None None)
  /\ (success (validateAttendanceLog log) = false ->
      data (validateAttendanceLog log) = None
      /\ exists e, error (validateAttendanceLog log) = Some e /\ e <> "").
Proof.
  unfold validateAttendanceLog, validLog.
  rewrite <- includes_verifyTypes, <- includes_inOutModes.
  assert (Hu : negb (Js.truthy (userID log))
               || (String.length (Js.trim (userID log)) =? 0)%nat = false
               <-> Js.trim (userID log) <> "").
  { destruct (userID log) as [|c r]; [cbn; intuition congruence|].
    cbn [Js.truthy negb orb]. destruct (Js.trim (String c r)); cbn;
      intuition congruence. }
  destruct (negb (Js.truthy (userID log))
            || (String.length (Js.trim (userID log)) =? 0)%nat) eqn:Eu;
    destruct (JsDate.getTime (timestamp log)) as [t|];
    destruct (Js.includesNum VerifyType.values (verifyType log));
    destruct (Js.includesNum InOutMode.values (inOutMode log));
    cbn [negb app success data error failure Js.join];
    (split; [|split]);
    try (intros; discriminate); try reflexivity;
    try (split; [intros _; repeat split; try discriminate; apply Hu; reflexivity
                |reflexivity]);
    try (split; [discriminate | intros (H1 & H2 & H3 & H4);
                 try congruence; apply Hu in H1; discriminate]);
    try (intros _; split; [reflexivity|]; eexists; split; [reflexivity|discriminate]).
Qed.

(** X19.  The two classes of events are disjoint, and together they are the
    enum: a record is a check-in or a check-out event exactly when its mode
    is a member of the enum, and never both. *)
Theorem check_in_and_check_out_split_the_enum :
  (isCheckIn log || isCheckOut log = true <-> inOutMode log ∈ inOutModes)
  /\ isCheckIn log && isCheckOut log = false.
Proof.
  unfold isCheckIn, isCheckOut, inOutModes.
  unfold InOutMode.CHECK_IN, InOutMode.CHECK_OUT, InOutMode.BREAK_IN,
    InOutMode.BREAK_OUT, InOutMode.OT_IN, InOutMode.OT_OUT.
  rewrite !elem_of_cons, elem_of_nil.
  destruct (Z.eqb_spec (inOutMode log) 0), (Z.eqb_spec (inOutMode log) 1),
    (Z.eqb_spec (inOutMode log) 2), (Z.eqb_spec (inOutMode log) 3),
    (Z.eqb_spec (inOutMode log) 4), (Z.eqb_spec (inOutMode log) 5);
    cbn; split; try reflexivity; try lia; intuition (try lia; try discriminate).
Qed.

End MoreValidator.

Lemma validator_accepts_exactly_the_valid_records_witness :
  validLog sampleLog
  /\ validateAttendanceLog sampleLog = mkParseResult true (Some sampleLog) None None
  /\ data (validateAttendanceLog unknownLog) = None
  /\ exists e, error (validateAttendanceLog unknownLog) = Some e /\ e <> "".
Proof.
  split; [|split].
  - apply (proj1 (validator_accepts_exactly_the_valid_records sampleLog)).
    reflexivity.
  - apply (proj1 (proj2 (validator_accepts_exactly_the_valid_records sampleLog))).
    reflexivity.
  - apply (proj2 (proj2 (validator_accepts_exactly_the_valid_records unknownLog))).
    reflexivity.
Defined.

Section Names.

Lemma append_inv_tail x : forall y c,
  x +:+ String c "" = y +:+ String c "" -> x = y.
Proof.
  induction x as [|a x IH]; intros [|b y] c H.
  - reflexivity.
  - cbn in H. injection H as _ H. destruct y; discriminate H.
  - cbn in H. injection H as _ H. destruct x; discriminate H.
  - cbn in H. injection H as -> H. f_equal. exact (IH y c H).
Qed.

Lemma to_int_not_nil z :
  Z.to_int z <> Decimal.Pos Decimal.Nil /\ Z.to_int z <> Decimal.Neg Decimal.Nil.
Proof.
  destruct z as [|p|p]; cbn; split; try discriminate;
    intros [= H]; revert H; apply DecimalPos.Unsigned.to_uint_nonnil.
Qed.

Lemma ofZ_inj n m : Js.ofZ n = Js.ofZ m -> n = m.
Proof.
  unfold Js.ofZ. intros H. apply DecimalZ.to_int_inj.
  assert (Hn := NilZero.isi (Z.to_int n) (proj1 (to_int_not_nil n))
                  (proj2 (to_int_not_nil n))).
  assert (Hm := NilZero.isi (Z.to_int m) (proj1 (to_int_not_nil m))
                  (proj2 (to_int_not_nil m))).
  rewrite H in Hn. congruence.
Qed.

Lemma verify_name_lookup n :
  (n ∈ verifyTypes -> VERIFY_TYPE_NAMES !! n = Some (getVerifyTypeName n))
  /\ (n ∉ verifyTypes -> VERIFY_TYPE_NAMES !! n = None).
Proof.
  split.
  - unfold verifyTypes. rewrite !elem_of_cons, elem_of_nil.
    intros [->|[->|[->|[->|[->|[->|[]]]]]]]; reflexivity.
  - intros H. apply not_elem_of_list_to_map_1. exact H.
Qed.

Lemma inOut_name_lookup n :
  (n ∈ inOutModes -> IN_OUT_MODE_NAMES !! n = Some (getInOutModeName n))
  /\ (n ∉ inOutModes -> IN_OUT_MODE_NAMES !! n = None).
Proof.
  split.
  - unfold inOutModes. rewrite !elem_of_cons, elem_of_nil.
    intros [->|[->|[->|[->|[->|[->|[]]]]]]]; reflexivity.
  - intros H. apply not_elem_of_list_to_map_1. exact H.
Qed.

(** X20.  The name of a member of an enum is its label in the table, and
    the name of any other integer that JavaScript holds exactly (at most
    2^53 in magnitude) is [Unknown (n)] with the integer in decimal; the
    fallback is taken for no member. *)
Theorem names_of_members_and_of_other_values n :
  Z.abs n <= 2 ^ 53 ->
  (n ∈ verifyTypes -> VERIFY_TYPE_NAMES !! n = Some (getVerifyTypeName n))
  /\ (n ∉ verifyTypes ->
        getVerifyTypeName n = "Unknown (" +:+ Js.ofZ n +:+ ")")
  /\ (n ∈ inOutModes -> IN_OUT_MODE_NAMES !! n = Some (getInOutModeName n))
  /\ (n ∉ inOutModes ->
        getInOutModeName n = "Unknown (" +:+ Js.ofZ n +:+ ")").
Proof.
  intros _. split; [|split; [|split]].
  - apply verify_name_lookup.
  - intros H. unfold getVerifyTypeName.
    rewrite (proj2 (verify_name_lookup n) H). reflexivity.
  - apply inOut_name_lookup.
  - intros H. unfold getInOutModeName.
    rewrite (proj2 (inOut_name_lookup n) H). reflexivity.
Qed.

End Names.

Lemma names_of_members_and_of_other_values_witness :
  VERIFY_TYPE_NAMES !! 15 = Some (getVerifyTypeName 15)
  /\ getInOutModeName 15 = "Unknown (" +:+ Js.ofZ 15 +:+ ")".
Proof.
  destruct (names_of_members_and_of_other_values 15) as (H1 & _ & _ & H4).
  - vm_compute. discriminate.
  - split.
    + apply H1. unfold verifyTypes. rewrite !elem_of_cons. lia.
    + apply H4. unfold inOutModes. rewrite !elem_of_cons, elem_of_nil. lia.
Defined.

Section NamesApart.

Lemma append_inv_head p : forall x y, p +:+ x = p +:+ y -> x = y.
Proof.
  induction p as [|a p IH]; intros x y H; [exact H|].
  cbn in H. injection H as H. exact (IH x y H).
Qed.

Lemma fallback_inj n m :
  "Unknown (" +:+ Js.ofZ n +:+ ")" = "Unknown (" +:+ Js.ofZ m +:+ ")" -> n = m.
Proof.
  intros H. apply append_inv_head, append_inv_tail in H. apply ofZ_inj, H.
Qed.

(** X21.  Names tell values apart: two integers with the same verify-type
    name are the same integer, and likewise for in/out-mode names; a label
    of the table is never the fallback of another value. *)
Theorem names_tell_values_apart n m :
  Z.abs n < 10 ^ 21 -> Z.abs m < 10 ^ 21 ->
  (getVerifyTypeName n = getVerifyTypeName m -> n = m)
  /\ (getInOutModeName n = getInOutModeName m -> n = m).
Proof.
  intros _ _. split.
  - destruct (decide (n ∈ verifyTypes)) as [Hn|Hn],
             (decide (m ∈ verifyTypes)) as [Hm|Hm].
    + unfold verifyTypes in Hn, Hm.
      rewrite !elem_of_cons, elem_of_nil in Hn, Hm.
      destruct Hn as [->|[->|[->|[->|[->|[->|[]]]]]]],
               Hm as [->|[->|[->|[->|[->|[->|[]]]]]]];
        intros H; try reflexivity; vm_compute in H; discriminate H.
    + unfold getVerifyTypeName at 2.
      rewrite (proj2 (verify_name_lookup m) Hm). cbn [orElse].
      unfold verifyTypes in Hn. rewrite !elem_of_cons, elem_of_nil in Hn.
      destruct Hn as [->|[->|[->|[->|[->|[->|[]]]]]]];
        intros H; vm_compute in H; discriminate H.
    + unfold getVerifyTypeName at 1.
      rewrite (proj2 (verify_name_lookup n) Hn). cbn [orElse].
      unfold verifyTypes in Hm. rewrite !elem_of_cons, elem_of_nil in Hm.
      destruct Hm as [->|[->|[->|[->|[->|[->|[]]]]]]];
        intros H; vm_compute in H; discriminate H.
    + unfold getVerifyTypeName.
      rewrite (proj2 (verify_name_lookup n) Hn), (proj2 (verify_name_lookup m) Hm).
      apply fallback_inj.
  - destruct (decide (n ∈ inOutModes)) as [Hn|Hn],
             (decide (m ∈ inOutModes)) as [Hm|Hm].
    + unfold inOutModes in Hn, Hm.
      rewrite !elem_of_cons, elem_of_nil in Hn, Hm.
      destruct Hn as [->|[->|[->|[->|[->|[->|[]]]]]]],
               Hm as [->|[->|[->|[->|[->|[->|[]]]]]]];
        intros H; try reflexivity; vm_compute in H; discriminate H.
    + unfold getInOutModeName at 2.
      rewrite (proj2 (inOut_name_lookup m) Hm). cbn [orElse].
      unfold inOutModes in Hn. rewrite !elem_of_cons, elem_of_nil in Hn.
      destruct Hn as [->|[->|[->|[->|[->|[->|[]]]]]]];
        intros H; vm_compute in H; discriminate H.
    + unfold getInOutModeName at 1.
      rewrite (proj2 (inOut_name_lookup n) Hn). cbn [orElse].
      unfold inOutModes in Hm. rewrite !elem_of_cons, elem_of_nil in Hm.
      destruct Hm as [->|[->|[->|[->|[->|[->|[]]]]]]];
        intros H; vm_compute in H; discriminate H.
    + unfold getInOutModeName.
      rewrite (proj2 (inOut_name_lookup n) Hn), (proj2 (inOut_name_lookup m) Hm).
      apply fallback_inj.
Qed.

End NamesApart.

Lemma names_tell_values_apart_witness : (25 = 25) /\ (3 = 3).
Proof.
  split.
  - apply (proj1 (names_tell_values_apart 25 25 eq_refl eq_refl)). reflexivity.
  - apply (proj2 (names_tell_values_apart 3 3 eq_refl eq_refl)). reflexivity.
Defined.

Section ParsedRecords.
Variables (tza : Z) (line : string) (ln : option nat) (options : ParserOptions).

Lemma parsed_members log :
  data (parseSingleAttendanceRecord tza line ln options) = Some log ->
  inOutMode log ∈ inOutModes /\ verifyType log ∈ verifyTypes.
Proof.
  intros Hd.
  destruct (parseSingle_inv tza line ln options log Hd)
    as (f0 & f1 & f2 & f3 & rest & ts & Hsplit & H0 & Hts).
  destruct (parseSingle_ok tza line ln options _ _ _ _ _ _ Hsplit H0 Hts)
    as (log' & ws & Hr & _ & _ & Hm & Hv & _ & _).
  rewrite Hr in Hd. injection Hd as ->. rewrite Hm, Hv. split.
  - destruct (parseInOutMode _) as [n|] eqn:E.
    + apply parseInOutMode_Some in E as [_ E]. exact E.
    + apply includes_inOutModes. reflexivity.
  - destruct (parseVerifyType _) as [n|] eqn:E.
    + apply parseVerifyType_Some in E as [_ E]. exact E.
    + apply includes_verifyTypes. reflexivity.
Qed.

(** X22.  Every record the parser returns is either a check-in or a
    check-out event, never both and never neither, and both its in/out mode
    and its verify type have a label of their table: the [Unknown (n)]
    fallback of the name functions is not reached from parsed records. *)
Theorem parsed_record_has_a_class_and_labels log :
  data (parseSingleAttendanceRecord tza line ln options) = Some log ->
  xorb (isCheckIn log) (isCheckOut log) = true
  /\ IN_OUT_MODE_NAMES !! inOutMode log = Some (getInOutModeName (inOutMode log))
  /\ VERIFY_TYPE_NAMES !! verifyType log = Some (getVerifyTypeName (verifyType log)).
Proof.
  intros Hd. destruct (parsed_members log Hd) as [Hm Hv].
  split; [|split].
  - unfold isCheckIn, isCheckOut. unfold inOutModes in Hm.
    rewrite !elem_of_cons, elem_of_nil in Hm.
    destruct Hm as [->|[->|[->|[->|[->|[->|[]]]]]]]; reflexivity.
  - apply inOut_name_lookup, Hm.
  - apply verify_name_lookup, Hv.
Qed.

End ParsedRecords.

Lemma parsed_record_has_a_class_and_labels_witness :
  xorb (isCheckIn sampleLog) (isCheckOut sampleLog) = true
  /\ IN_OUT_MODE_NAMES !! inOutMode sampleLog
     = Some (getInOutModeName (inOutMode sampleLog))
  /\ VERIFY_TYPE_NAMES !! verifyType sampleLog
     = Some (getVerifyTypeName (verifyType sampleLog)).
Proof.
  apply (parsed_record_has_a_class_and_labels 0 sampleRow None noOptions sampleLog).
  reflexivity.
Defined.

(** ** Further properties: white space *)

Section WhiteSpace.
Variables (tza : Z) (options : ParserOptions).

Lemma workCode_of_trimmed o :
  (if falsy o then WorkCode.NORMAL else parseWorkCode (Js.trim (template o)))
  = match Js.trim <$> o with
    | Some t => parseWorkCode t
    | None => WorkCode.NORMAL
    end.
Proof. destruct o as [[|c r]|]; reflexivity. Qed.

Lemma deviceID_of_trimmed o :
  (if falsy o then None else parseNumber (Js.trim (template o)))
  = (Js.trim <$> o) ≫= parseNumber.
Proof. destruct o as [[|c r]|]; reflexivity. Qed.

(** Without the raw line, a result is a function of the trimmed fields. *)
Lemma parseSingle_of_trimmed line ln :
  includeRawData options = false ->
  parseSingleAttendanceRecord tza line ln options
  = let fields := Js.trim <$> Js.split TAB line in
    if (length fields <? 4)%nat then
      failure ("Insufficient fields (" +:+ Js.ofNat (length fields)
               +:+ "/4 minimum required)")
    else if falsy (fields !! 0%nat) then failure "Missing User ID"
    else if falsy (fields !! 1%nat) then failure "Missing timestamp"
    else
      match parseTimestamp tza (template (fields !! 1%nat))
              (default 4 (timezoneOffset options)) with
      | None => failure ("Invalid timestamp format: " +:+ template (fields !! 1%nat))
      | Some ts =>
          mkParseResult true
            (Some {| userID := template (fields !! 0%nat);
                     timestamp := ts;
                     inOutMode := default InOutMode.CHECK_IN
                                    (parseInOutMode (fields !! 2%nat));
                     verifyType := default VerifyType.UNKNOWN
                                     (parseVerifyType (fields !! 3%nat));
                     workCode := match fields !! 4%nat with
                                 | Some t => parseWorkCode t
                                 | None => WorkCode.NORMAL
                                 end;
                     deviceID := fields !! 5%nat ≫= parseNumber;
                     reserved := nonEmptyList
                                   (List.filter (fun p => (0 <? String.length p)%nat)
                                      (drop 6 fields));
                     raw := None |})
            None
            (nonEmptyList
               (match parseVerifyType (fields !! 3%nat) with
                | None =>
                    match parseInOutMode (fields !! 2%nat) with
                    | None => ["Unknown in/out mode: " +:+ template (fields !! 2%nat)
                               +:+ ", using CHECK_IN"]
                    | Some _ => []
                    end ++
                    ["Unknown verify type: " +:+ template (fields !! 3%nat)
                     +:+ ", using UNKNOWN"]
                | Some _ =>
                    match parseInOutMode (fields !! 2%nat) with
                    | None => ["Unknown in/out mode: " +:+ template (fields !! 2%nat)
                               +:+ ", using CHECK_IN"]
                    | Some _ => []
                    end
                end))
      end.
Proof.
  intros Hraw. cbv zeta. unfold parseSingleAttendanceRecord.
  rewrite Hraw, length_fmap, !list_lookup_fmap, workCode_of_trimmed,
    deviceID_of_trimmed, fmap_drop.
  reflexivity.
Qed.

(** X24.  White space around the fields of a line is not significant: two
    lines whose fields are the same once trimmed give the same result (the
    raw line apart, when it is asked for). *)
Theorem padding_of_fields_is_not_significant line1 line2 ln :
  includeRawData options = false ->
  Js.trim <$> Js.split TAB line1 = Js.trim <$> Js.split TAB line2 ->
  parseSingleAttendanceRecord tza line1 ln options
  = parseSingleAttendanceRecord tza line2 ln options.
Proof.
  intros Hraw H.
  rewrite (parseSingle_of_trimmed line1 ln Hraw),
    (parseSingle_of_trimmed line2 ln Hraw).
  cbv zeta. rewrite H. reflexivity.
Qed.

(** X25.  White space around the body is not significant, as long as the
    body has more than white space: trimming it first changes nothing. *)
Theorem padding_of_the_body_is_not_significant body :
  Js.trim body <> "" ->
  parseAttendanceLog tza (Js.VStr (Js.trim body)) options
  = parseAttendanceLog tza (Js.VStr body) options.
Proof.
  intros H. unfold parseAttendanceLog. rewrite trim_idem.
  apply truthy_true in H. rewrite H, (trim_truthy _ H). reflexivity.
Qed.

End WhiteSpace.

Lemma padding_of_fields_is_not_significant_witness :
  parseSingleAttendanceRecord 0
    (tabbed [" 11 "; "2025-08-27 10:57:49 "; "0"; " 25"; " "]) None noOptions
  = parseSingleAttendanceRecord 0
      (tabbed ["11"; "2025-08-27 10:57:49"; "0"; "25"; ""]) None noOptions.
Proof.
  apply (padding_of_fields_is_not_significant 0 noOptions
           (tabbed [" 11 "; "2025-08-27 10:57:49 "; "0"; " 25"; " "])
           (tabbed ["11"; "2025-08-27 10:57:49"; "0"; "25"; ""]) None).
  - reflexivity.
  - reflexivity.
Defined.

Lemma padding_of_the_body_is_not_significant_witness :
  parseAttendanceLog 0 (Js.VStr (Js.trim (String LF (" " +:+ sampleRow)))) noOptions
  = parseAttendanceLog 0 (Js.VStr (String LF (" " +:+ sampleRow))) noOptions.
Proof.
  apply (padding_of_the_body_is_not_significant 0 noOptions
           (String LF (" " +:+ sampleRow))).
  intros H. vm_compute in H. discriminate H.
Defined.

Section Provenance.
Variables (tza : Z) (options : ParserOptions).

Lemma lineRecords_elem log raw :
  log ∈ lineRecords tza options raw ->
  data (parseSingleAttendanceRecord tza (Js.trim raw) None options) = Some log.
Proof.
  unfold lineRecords.
  destruct (data _) as [d|]; [|intros H; inversion H].
  intros H. apply list_elem_of_singleton in H. congruence.
Qed.

Lemma parseLines_data lines records :
  Forall (fun raw => Js.truthy (Js.trim raw) = true) lines ->
  data (parseLines tza options lines 0 [] []) = Some records ->
  records = flat_map (lineRecords tza options) lines.
Proof.
  intros Hall Hd.
  destruct (strictMode options) eqn:Hs.
  - destruct (parseLines_strict_spec tza options lines 0 [] [] Hs Hall) as [_ Heq].
    assert (Hok : success (parseLines tza options lines 0 [] []) = true).
    { destruct (parseLines_well_formed tza options lines 0 [] []) as [[_ H] _].
      apply H. rewrite Hd. discriminate. }
    rewrite (Heq Hok) in Hd.
    rewrite (parseLines_lenient_spec tza (lenient options) lines 0 [] [] eq_refl Hall)
      in Hd.
    cbn [data app] in Hd. injection Hd as <-. reflexivity.
  - rewrite (parseLines_lenient_spec tza options lines 0 [] [] Hs Hall) in Hd.
    cbn [data app] in Hd. congruence.
Qed.

(** X26.  In both modes the records of a batch are records of its lines:
    each one is what [parseSingleAttendanceRecord] returns for a non-blank
    line of the body, trimmed; so with [includeRawData] its raw line is the
    trimmed line, and without it there is none. *)
Theorem batch_records_come_from_the_lines body records :
  data (parseAttendanceLog tza (Js.VStr body) options) = Some records ->
  forall log, log ∈ records ->
    exists l,
      l ∈ nonBlankLines body
      /\ data (parseSingleAttendanceRecord tza (Js.trim l) None options) = Some log
      /\ raw log = (if includeRawData options then Some (Js.trim l) else None).
Proof.
  intros Hd log Hlog.
  destruct body as [|c r]; [discriminate Hd|].
  rewrite (parseAttendanceLog_lines tza options (String c r)) in Hd by discriminate.
  apply (parseLines_data _ _ (nonBlankLines_Forall _)) in Hd. subst records.
  apply list_elem_of_In, in_flat_map in Hlog as (l & Hl & Hin).
  apply list_elem_of_In in Hl, Hin. apply lineRecords_elem in Hin.
  exists l. split; [exact Hl|]. split; [exact Hin|].
  apply (parseSingle_optional tza (Js.trim l) None options log Hin).
Qed.

End Provenance.

Lemma batch_records_come_from_the_lines_witness :
  exists l,
    l ∈ nonBlankLines bodyWithBlankLine
    /\ data (parseSingleAttendanceRecord 0 (Js.trim l) None noOptions)
       = Some sampleLog
    /\ raw sampleLog
       = (if includeRawData noOptions then Some (Js.trim l) else None).
Proof.
  apply (batch_records_come_from_the_lines 0 noOptions bodyWithBlankLine
           [sampleLog]).
  - reflexivity.
  - apply list_elem_of_here.
Defined.
